(** * Desktop Index: the "recent files" panel

    A shallow embedding of [src/web/static/recent.js] (the panel) and of the
    shared front-end utilities it is compared with, followed by the
    properties of the panel's filtering, rendering and fetch handling.

    Layout: [JS] holds the fragments of the host language the two scripts
    rely on (strings of UTF-16 code units, property lookup through the
    prototype chain, template interpolation, exceptions); [Common] embeds the
    shared utilities; [Recent] embeds the panel. *)

From Stdlib Require Import List ZArith NArith Bool Ascii String Lia.
From Stdlib Require Import DecimalString.
Import ListNotations.

Set Implicit Arguments.

(* ------------------------------------------------------------------------- *)
(** ** Host language fragments                                                *)
(* ------------------------------------------------------------------------- *)

Module JS.

Local Open Scope N_scope.

(** A string is a sequence of UTF-16 code units; [length], [substring] and
    [===] of the scripts are [List.length], [firstn] and [streq] on it. *)
Definition codeunit := N.
Definition jsstring := list codeunit.

(** An ASCII literal of the scripts. *)
Definition str (s : string) : jsstring :=
  map N_of_ascii (list_ascii_of_string s).

Fixpoint streq (a b : jsstring) : bool :=
  match a, b with
  | [], [] => true
  | x :: a', y :: b' => N.eqb x y && streq a' b'
  | _, _ => false
  end.

(** [String.prototype.toLowerCase].  Only the code units whose lower-case
    form is an ASCII character are mapped: [A]-[Z] and the Kelvin sign
    U+212A.  The lower-case form of any other code unit is not ASCII, so
    leaving it in place changes no comparison with the ASCII keys of the
    tables below. *)
Definition lowerUnit (c : codeunit) : codeunit :=
  if (65 <=? c) && (c <=? 90) then c + 32
  else if c =? 8490 then 107
  else c.

Definition toLowerCase (s : jsstring) : jsstring := map lowerUnit s.

(** [s.replace(/c/g, by)] for a one-character pattern [c]. *)
Definition replaceAll (c : codeunit) (by_ : jsstring) (s : jsstring) : jsstring :=
  flat_map (fun x => if x =? c then by_ else [x]) s.

(** [s.split(sep)] for a one-character separator: never an empty array. *)
Fixpoint split (sep : codeunit) (s : jsstring) : list jsstring :=
  match s with
  | [] => [[]]
  | x :: s' =>
      if x =? sep then [] :: split sep s'
      else match split sep s' with
           | seg :: segs => (x :: seg) :: segs
           | [] => [[x]]
           end
  end.

(** [parts.join(sep)]. *)
Fixpoint join (sep : jsstring) (parts : list jsstring) : jsstring :=
  match parts with
  | [] => []
  | [p] => p
  | p :: rest => p ++ sep ++ join sep rest
  end.

(** Number-to-string conversion of an integer-valued number. *)
Definition ofInt (z : Z) : jsstring :=
  str (NilZero.string_of_int (Z.to_int z)).

(** The values a property read of an object literal with string or [null]
    members can produce: one of its own members, [undefined], or a member
    inherited from [Object.prototype]. *)
Inductive value :=
| Undefined
| Null
| Str (s : jsstring)
| Native (fname : jsstring)   (* a built-in function called [fname] *)
| ObjectProto.                (* the object [Object.prototype] itself *)

Definition truthy (v : value) : bool :=
  match v with
  | Undefined | Null => false
  | Str s => negb (streq s [])
  | Native _ | ObjectProto => true
  end.

(** Conversion to string, as done by template interpolation.  The text of a
    built-in function is the one V8 prints. *)
Definition toStr (v : value) : jsstring :=
  match v with
  | Undefined => str "undefined"
  | Null => str "null"
  | Str s => s
  | Native f => str "function " ++ f ++ str "() { [native code] }"
  | ObjectProto => str "[object Object]"
  end.

(** [a || b] on values. *)
Definition or_ (a b : value) : value := if truthy a then a else b.

(** The property names every object literal inherits. *)
Definition objectPrototypeMethods : list jsstring :=
  map str
    [ "__defineGetter__"; "__defineSetter__"; "hasOwnProperty";
      "__lookupGetter__"; "__lookupSetter__"; "isPrototypeOf";
      "propertyIsEnumerable"; "toString"; "valueOf"; "toLocaleString" ]%string.

Definition inherited (key : jsstring) : value :=
  if streq key (str "constructor") then Native (str "Object")
  else if streq key (str "__proto__") then ObjectProto
  else if existsb (streq key) objectPrototypeMethods then Native key
  else Undefined.

(** An object literal is the list of its own members. *)
Definition object := list (jsstring * value).

Fixpoint own (o : object) (key : jsstring) : option value :=
  match o with
  | [] => None
  | (k, v) :: o' => if streq key k then Some v else own o' key
  end.

(** [o[key]]: own members first, then the prototype. *)
Definition get (o : object) (key : jsstring) : value :=
  match own o key with
  | Some v => v
  | None => inherited key
  end.

(** Exceptions.  [message] is what [error.message] reads. *)
Record Error := mkError { name : string; message : jsstring }.

Inductive result (A : Type) :=
| Ok (a : A)
| Throw (e : Error).
Arguments Ok {A} a.
Arguments Throw {A} e.

(** Reading property [prop] of [undefined] or [null] ([base]); the text is
    the one V8 reports. *)
Definition cannotRead (base prop : string) : Error :=
  mkError "TypeError"
    (str "Cannot read properties of " ++ str base
       ++ str " (reading '" ++ str prop ++ str "')").

End JS.

Import JS.

(** The glyphs of the two icon tables and of the row template, as the
    code units of the literals in the scripts. *)
Module Glyph.
Local Open Scope N_scope.
Definition closed_book    : jsstring := [0xD83D; 0xDCD5].          (* U+1F4D5 *)
Definition blue_book      : jsstring := [0xD83D; 0xDCD8].          (* U+1F4D8 *)
Definition green_book     : jsstring := [0xD83D; 0xDCD7].          (* U+1F4D7 *)
Definition orange_book    : jsstring := [0xD83D; 0xDCD9].          (* U+1F4D9 *)
Definition page           : jsstring := [0xD83D; 0xDCC4].          (* U+1F4C4 *)
Definition memo           : jsstring := [0xD83D; 0xDCDD].          (* U+1F4DD *)
Definition bar_chart      : jsstring := [0xD83D; 0xDCCA].          (* U+1F4CA *)
Definition clipboard      : jsstring := [0xD83D; 0xDCCB].          (* U+1F4CB *)
Definition snake          : jsstring := [0xD83D; 0xDC0D].          (* U+1F40D *)
Definition scroll         : jsstring := [0xD83D; 0xDCDC].          (* U+1F4DC *)
Definition globe          : jsstring := [0xD83C; 0xDF10].          (* U+1F310 *)
Definition palette        : jsstring := [0xD83C; 0xDFA8].          (* U+1F3A8 *)
Definition coffee         : jsstring := [0x2615].                  (* U+2615 *)
Definition gear           : jsstring := [0x2699; 0xFE0F].          (* U+2699 U+FE0F *)
Definition blue_diamond   : jsstring := [0xD83D; 0xDD37].          (* U+1F537 *)
Definition crab           : jsstring := [0xD83E; 0xDD80].          (* U+1F980 *)
Definition gem            : jsstring := [0xD83D; 0xDC8E].          (* U+1F48E *)
Definition elephant       : jsstring := [0xD83D; 0xDC18].          (* U+1F418 *)
Definition card_file_box  : jsstring := [0xD83D; 0xDDC3; 0xFE0F].  (* U+1F5C3 U+FE0F *)
Definition package        : jsstring := [0xD83D; 0xDCE6].          (* U+1F4E6 *)
Definition framed_picture : jsstring := [0xD83D; 0xDDBC; 0xFE0F].  (* U+1F5BC U+FE0F *)
Definition musical_note   : jsstring := [0xD83C; 0xDFB5].          (* U+1F3B5 *)
Definition clapper        : jsstring := [0xD83C; 0xDFAC].          (* U+1F3AC *)
Definition calendar       : jsstring := [0xD83D; 0xDCC5].          (* U+1F4C5 *)
End Glyph.

(** The Japanese words of the date labels. *)
Module Word.
Local Open Scope N_scope.
Definition ima        : jsstring := [0x4ECA].                  (* now *)
Definition fun_mae    : jsstring := [0x5206; 0x524D].          (* minutes ago *)
Definition jikan_mae  : jsstring := [0x6642; 0x9593; 0x524D].  (* hours ago *)
Definition nichi_mae  : jsstring := [0x65E5; 0x524D].          (* days ago *)
Definition kyou       : jsstring := [0x4ECA; 0x65E5].          (* today *)
Definition kinou      : jsstring := [0x6628; 0x65E5].          (* yesterday *)
Definition shuukan_mae : jsstring := [0x9031; 0x9593; 0x524D]. (* weeks ago *)
Definition kagetsu_mae : jsstring := [0x30F6; 0x6708; 0x524D]. (* months ago *)
Definition nen_mae    : jsstring := [0x5E74; 0x524D].          (* years ago *)
Definition fumei      : jsstring := [0x4E0D; 0x660E].          (* unknown *)
End Word.

(** [x || ''] and [!x] for a field that is a string when present. *)
Definition orEmpty (x : option jsstring) : jsstring :=
  match x with Some s => s | None => [] end.

Definition falsy (x : option jsstring) : bool :=
  match x with Some (_ :: _) => false | _ => true end.

(* ------------------------------------------------------------------------- *)
(** ** The shared utilities (the script with [copyToClipboard], [showToast],
       [getFileIcon], [formatFileSize], [formatRelativeDate])                 *)
(* ------------------------------------------------------------------------- *)

Module Common.

Definition iconMap : object :=
  map (fun kv => (str (fst kv), Str (snd kv)))
    [ (".pdf", Glyph.closed_book); (".doc", Glyph.blue_book);
      (".docx", Glyph.blue_book); (".xls", Glyph.green_book);
      (".xlsx", Glyph.green_book); (".ppt", Glyph.orange_book);
      (".pptx", Glyph.orange_book);
      (".txt", Glyph.page); (".md", Glyph.memo); (".csv", Glyph.bar_chart);
      (".json", Glyph.clipboard); (".xml", Glyph.clipboard);
      (".yaml", Glyph.clipboard); (".yml", Glyph.clipboard);
      (".py", Glyph.snake); (".js", Glyph.scroll); (".ts", Glyph.scroll);
      (".html", Glyph.globe); (".css", Glyph.palette); (".java", Glyph.coffee);
      (".c", Glyph.gear); (".cpp", Glyph.gear); (".go", Glyph.blue_diamond);
      (".rs", Glyph.crab); (".rb", Glyph.gem); (".php", Glyph.elephant);
      (".sql", Glyph.card_file_box);
      (".zip", Glyph.package); (".rar", Glyph.package); (".7z", Glyph.package);
      (".tar", Glyph.package); (".gz", Glyph.package);
      (".jpg", Glyph.framed_picture); (".jpeg", Glyph.framed_picture);
      (".png", Glyph.framed_picture); (".gif", Glyph.framed_picture);
      (".svg", Glyph.framed_picture); (".webp", Glyph.framed_picture);
      (".mp3", Glyph.musical_note); (".wav", Glyph.musical_note);
      (".flac", Glyph.musical_note); (".aac", Glyph.musical_note);
      (".mp4", Glyph.clapper); (".avi", Glyph.clapper); (".mkv", Glyph.clapper);
      (".mov", Glyph.clapper); (".webm", Glyph.clapper) ]%string.

(** [iconMap[extension.toLowerCase()] || page]: an absent extension has no
    [toLowerCase] to call. *)
Definition getFileIcon (extension : option jsstring) : result value :=
  match extension with
  | None => Throw (cannotRead "undefined" "toLowerCase")
  | Some e => Ok (or_ (get iconMap (toLowerCase e)) (Str Glyph.page))
  end.

Section Clock.

(** [new Date(s).getTime()], [None] for an invalid date; the time of the
    call, both in milliseconds. *)
Variable parseDate : jsstring -> option Z.
Variable now : Z.

Definition formatRelativeDate (dateString : option jsstring) : jsstring :=
  if falsy dateString then Word.fumei
  else
    match parseDate (orEmpty dateString) with
    | None =>
        (* every comparison with NaN fails *)
        str "NaN" ++ Word.nen_mae
    | Some date =>
        let diffMs := (now - date)%Z in
        let diffDays := (diffMs / (1000 * 60 * 60 * 24))%Z in
        if (diffDays =? 0)%Z then Word.kyou
        else if (diffDays =? 1)%Z then Word.kinou
        else if (diffDays <? 7)%Z then ofInt diffDays ++ Word.nichi_mae
        else if (diffDays <? 30)%Z then ofInt (diffDays / 7) ++ Word.shuukan_mae
        else if (diffDays <? 365)%Z then ofInt (diffDays / 30) ++ Word.kagetsu_mae
        else ofInt (diffDays / 365) ++ Word.nen_mae
    end.

End Clock.

(** *** Toasts *)

(** A toast: what [showToast] sets on the element it creates, apart from
    the style properties that are the same for every toast. *)
Record Toast := mkToast {
  className : jsstring;
  textContent : jsstring;
  backgroundColor : jsstring;
  animation : jsstring
}.

(** The elements of class [toast] in the document, in document order, each
    with the number that tells it from the others, and the number of toasts
    created so far. *)
Record Document := mkDocument {
  toasts : list (nat * Toast);
  created : nat
}.

(** [document.querySelector('.toast')] and [remove] on what it finds. *)
Definition removeFirst (d : Document) : Document :=
  mkDocument (tl (toasts d)) (created d).

Definition showToast (message type : jsstring) (d : Document) : Document :=
  let d := removeFirst d in
  let toast :=
    mkToast (str "toast toast-" ++ type) message
            (if streq type (str "error") then str "#ea4335" else str "#34a853")
            (str "fadeIn 0.3s ease") in
  mkDocument (toasts d ++ [(created d, toast)]) (S (created d)).

(** The two timers [showToast] starts for the toast numbered [id]: after 3
    seconds it fades, 0.3 seconds later it leaves the document. *)
Definition fadeOut (id : nat) (d : Document) : Document :=
  mkDocument
    (map (fun t => if Nat.eqb (fst t) id
                   then (fst t, mkToast (className (snd t)) (textContent (snd t))
                                  (backgroundColor (snd t)) (str "fadeOut 0.3s ease"))
                   else t)
         (toasts d))
    (created d).

Definition removeToast (id : nat) (d : Document) : Document :=
  mkDocument (filter (fun t => negb (Nat.eqb (fst t) id)) (toasts d))
             (created d).

(** What can happen to the toasts of a page: a toast is shown, or a timer
    of an earlier toast fires. *)
Inductive toastStep : Document -> Document -> Prop :=
| step_show message type d : toastStep d (showToast message type d)
| step_fade id d : toastStep d (fadeOut id d)
| step_remove id d : toastStep d (removeToast id d).

Inductive toastReach (d0 : Document) : Document -> Prop :=
| reach_refl : toastReach d0 d0
| reach_step d d' : toastReach d0 d -> toastStep d d' -> toastReach d0 d'.

Definition copied : jsstring :=
  [0x30AF; 0x30EA; 0x30C3; 0x30D7; 0x30DC; 0x30FC; 0x30C9; 0x306B; 0x30B3;
   0x30D4; 0x30FC; 0x3057; 0x307E; 0x3057; 0x305F]%N.

Definition copyFailed : jsstring :=
  [0x30B3; 0x30D4; 0x30FC; 0x306B; 0x5931; 0x6557; 0x3057; 0x307E; 0x3057;
   0x305F]%N.

Section Clipboard.

(** What [navigator.clipboard.writeText] settles to; a browser without a
    clipboard throws as well. *)
Variable writeText : jsstring -> result unit.

Definition copyToClipboard (text : jsstring) (d : Document) : Document * bool :=
  match writeText text with
  | Ok _ => (showToast copied (str "success") d, true)
  | Throw _ => (showToast copyFailed (str "error") d, false)
  end.

End Clipboard.

End Common.

(* ------------------------------------------------------------------------- *)
(** ** The panel: [src/web/static/recent.js]                                  *)
(* ------------------------------------------------------------------------- *)

Module Recent.

Local Open Scope N_scope.

Definition API_RECENT : jsstring := str "/api/recent".

Definition FILTER_MAP : object :=
  [ (str "all", Null);
    (str "pdf", Str (str "pdf"));
    (str "word", Str (str "docx"));
    (str "excel", Str (str "xlsx")) ].

Definition FILE_ICONS : object :=
  [ (str ".pdf", Str Glyph.closed_book);
    (str ".doc", Str Glyph.blue_book);
    (str ".docx", Str Glyph.blue_book);
    (str ".xls", Str Glyph.green_book);
    (str ".xlsx", Str Glyph.green_book);
    (str ".ppt", Str Glyph.orange_book);
    (str ".pptx", Str Glyph.orange_book);
    (str "default", Str Glyph.page) ].

(** One element of [hits]: every field is a string when it is present. *)
Record RecentFile := mkFile {
  path : option jsstring;
  filename : option jsstring;
  extension : option jsstring;
  modified_at : option jsstring
}.

(** *** Utilities *)

Definition getFileIcon (extension : option jsstring) : value :=
  let ext := toLowerCase (orEmpty extension) in
  or_ (get FILE_ICONS ext) (get FILE_ICONS (str "default")).

Definition getFolderPath (path : option jsstring) : jsstring :=
  if falsy path then []
  else
    let parts := split 92 (replaceAll 47 [92] (orEmpty path)) in
    let parts := removelast parts in
    join [92] parts.

(** The five replacements of [escapeHTML], in the order it chains them. *)
Definition replaced5 (s : jsstring) : jsstring :=
  replaceAll 39 (str "&#039;")
    (replaceAll 34 (str "&quot;")
      (replaceAll 62 (str "&gt;")
        (replaceAll 60 (str "&lt;")
          (replaceAll 38 (str "&amp;") s)))).

Definition escapeHTML (s : option jsstring) : jsstring :=
  if falsy s then [] else replaced5 (orEmpty s).

Section Host.

(** [new Date(s).getTime()], [None] for an invalid date; the time of the
    call, both in milliseconds; and
    [toLocaleDateString('ja-JP', {month: 'short', day: 'numeric'})] of a
    valid date. *)
Variable parseDate : jsstring -> option Z.
Variable now : Z.
Variable monthDay : Z -> jsstring.

Definition formatRelativeDate (dateString : option jsstring) : jsstring :=
  if falsy dateString then []
  else
    match parseDate (orEmpty dateString) with
    | None =>
        (* every comparison with NaN fails *)
        str "Invalid Date"
    | Some date =>
        let diffMs := (now - date)%Z in
        let diffMinutes := (diffMs / (1000 * 60))%Z in
        let diffHours := (diffMs / (1000 * 60 * 60))%Z in
        let diffDays := (diffMs / (1000 * 60 * 60 * 24))%Z in
        if (diffMinutes <? 1)%Z then Word.ima
        else if (diffMinutes <? 60)%Z then ofInt diffMinutes ++ Word.fun_mae
        else if (diffHours <? 24)%Z then ofInt diffHours ++ Word.jikan_mae
        else if (diffDays <? 7)%Z then ofInt diffDays ++ Word.nichi_mae
        else monthDay date
    end.

(** *** Rows *)

(** The name shown in a row, from a present [filename]. *)
Definition displayName (name : jsstring) : jsstring :=
  if (30 <? List.length name)%nat then firstn 27 name ++ str "..." else name.

Definition nl : jsstring := [10].
Definition dq : jsstring := [34].
Definition indent (n : nat) : jsstring := repeat 32 n.

(** The row template with its seven interpolations. *)
Definition rowTemplate
    (dataPath title icon shown folderTitle folder date : jsstring) : jsstring :=
  nl ++ indent 8
    ++ str "<div class=" ++ dq ++ str "recent-file-item" ++ dq
    ++ str " data-path=" ++ dq ++ dataPath ++ dq
    ++ str " title=" ++ dq ++ title ++ dq ++ str ">"
  ++ nl ++ indent 12
    ++ str "<div class=" ++ dq ++ str "recent-file-header" ++ dq ++ str ">"
  ++ nl ++ indent 16
    ++ str "<span class=" ++ dq ++ str "recent-file-icon" ++ dq ++ str ">"
    ++ icon ++ str "</span>"
  ++ nl ++ indent 16
    ++ str "<span class=" ++ dq ++ str "recent-file-name" ++ dq ++ str ">"
    ++ shown ++ str "</span>"
  ++ nl ++ indent 12 ++ str "</div>"
  ++ nl ++ indent 12
    ++ str "<div class=" ++ dq ++ str "recent-file-path" ++ dq
    ++ str " title=" ++ dq ++ folderTitle ++ dq ++ str ">"
    ++ folder ++ str "</div>"
  ++ nl ++ indent 12
    ++ str "<div class=" ++ dq ++ str "recent-file-date" ++ dq ++ str ">"
    ++ Glyph.calendar ++ str " " ++ date ++ str "</div>"
  ++ nl ++ indent 8 ++ str "</div>"
  ++ nl ++ indent 4.

Definition createFileItemHTML (file : RecentFile) : result jsstring :=
  let icon := getFileIcon (extension file) in
  let date := formatRelativeDate (modified_at file) in
  let folderPath := getFolderPath (path file) in
  match filename file with
  | None => Throw (cannotRead "undefined" "length")
  | Some name =>
      let shown := displayName name in
      Ok (rowTemplate
            (escapeHTML (path file)) (escapeHTML (filename file))
            (toStr icon) (escapeHTML (Some shown))
            (escapeHTML (Some folderPath)) (escapeHTML (Some folderPath))
            date)
  end.

(** [files.map(createFileItemHTML)]: the first row that throws ends it. *)
Fixpoint mapRows (files : list RecentFile) : result (list jsstring) :=
  match files with
  | [] => Ok []
  | f :: rest =>
      match createFileItemHTML f with
      | Throw e => Throw e
      | Ok row =>
          match mapRows rest with
          | Throw e => Throw e
          | Ok rows => Ok (row :: rows)
          end
      end
  end.

(** *** Panel state *)

(** What [container.innerHTML] holds: one of the four templates of the
    script, with the values interpolated into it. *)
Inductive View :=
| LoadingView                               (* recent-files-loading *)
| ErrorView (message : jsstring)            (* recent-files-error *)
| EmptyView                                 (* recent-files-empty *)
| ListView (rows : jsstring) (count : nat). (* rows, then recent-files-count *)

(** The two globals of the script and the content of the element
    [recentFilesList], [None] when the page has no such element. *)
Record State := mkState {
  currentFilter : jsstring;
  allFilesCache : list RecentFile;
  container : option View
}.

(** Statements: a state transformer that either completes or throws. *)
Definition M (A : Type) := State -> State * result A.

Definition ret {A} (a : A) : M A := fun st => (st, Ok a).

Definition bind {A B} (m : M A) (k : A -> M B) : M B :=
  fun st =>
    match m st with
    | (st', Ok a) => k a st'
    | (st', Throw e) => (st', Throw e)
    end.

Definition throw {A} (e : Error) : M A := fun st => (st, Throw e).

Definition tryCatch {A} (body : M A) (handler : Error -> M A) : M A :=
  fun st =>
    match body st with
    | (st', Ok a) => (st', Ok a)
    | (st', Throw e) => handler e st'
    end.

Definition lift {A} (r : result A) : M A := fun st => (st, r).

Definition getElementById : M bool :=
  fun st => (st, Ok (match container st with Some _ => true | None => false end)).

Definition setInnerHTML (v : View) : M unit :=
  fun st => (mkState (currentFilter st) (allFilesCache st) (Some v), Ok tt).

Definition setCache (files : list RecentFile) : M unit :=
  fun st => (mkState (currentFilter st) files (container st), Ok tt).

Definition setFilter (selector : jsstring) : M unit :=
  fun st => (mkState selector (allFilesCache st) (container st), Ok tt).

Definition read {A} (f : State -> A) : M A := fun st => (st, Ok (f st)).

Notation "x <- m ;; k" := (bind m (fun x => k))
  (at level 61, m at next level, right associativity).
Notation "m ;;; k" := (bind m (fun _ => k))
  (at level 61, right associativity).

(** *** Filtering and display *)

(** Lines 174-193 of [displayFilteredFiles]: the files to show. *)
Definition filteredFiles (currentFilter : jsstring)
    (allFilesCache : list RecentFile) : list RecentFile :=
  if negb (streq currentFilter (str "all")) then
    let filterExt := get FILTER_MAP currentFilter in
    if truthy filterExt then
      filter (fun file =>
                let ext := toLowerCase (orEmpty (extension file)) in
                if streq currentFilter (str "word") then
                  streq ext (str ".doc") || streq ext (str ".docx")
                else if streq currentFilter (str "excel") then
                  streq ext (str ".xls") || streq ext (str ".xlsx")
                else streq ext (str "." ++ toStr filterExt))
             allFilesCache
    else allFilesCache
  else allFilesCache.

(** [attachClickHandlers] binds listeners to the rows just written and
    touches neither global nor the content of the container. *)
Definition attachClickHandlers : M unit := ret tt.

Definition displayFilteredFiles : M unit :=
  present <- getElementById ;;
  if negb present then ret tt
  else
    selector <- read currentFilter ;;
    cache <- read allFilesCache ;;
    let shown := filteredFiles selector cache in
    if (List.length shown =? 0)%nat then setInnerHTML EmptyView
    else
      rows <- lift (mapRows shown) ;;
      setInnerHTML (ListView (join [] rows) (List.length shown)) ;;;
      attachClickHandlers.

(** A click on a filter button whose [data-filter] attribute is [marker]. *)
Definition filterButtonClick (marker : option jsstring) : M unit :=
  setFilter (if falsy marker then str "all" else orEmpty marker) ;;;
  displayFilteredFiles.

(** *** Fetching *)

(** The parsed body of a response: [null], or an object whose [hits] is an
    array when it is present. *)
Inductive Json :=
| JNull
| JObject (hits : option (list RecentFile)).

(** What the request resolves to: a rejected [fetch], or a response with its
    status and what [response.json()] settles to. *)
Inductive Fetch :=
| Rejected (e : Error)
| Response (status : Z) (body : result Json).

Definition ok (status : Z) : bool := ((200 <=? status) && (status <=? 299))%Z.

Variable fetch : jsstring -> Fetch.

(** The address of the request for the files of the last [days] days. *)
Definition request (days : Z) : jsstring :=
  API_RECENT ++ str "?days=" ++ ofInt days.

(** [loadRecentFiles(days)], run to completion: the two [await]s resume
    with what [fetch] settles to. *)
Definition loadRecentFiles (days : Z) : M unit :=
  present <- getElementById ;;
  if negb present then ret tt
  else
    setInnerHTML LoadingView ;;;
    tryCatch
      (match fetch (request days) with
       | Rejected e => throw e
       | Response status body =>
           if negb (ok status) then
             throw (mkError "Error" (str "API error: " ++ ofInt status))
           else
             data <- lift body ;;
             match data with
             | JNull => throw (cannotRead "null" "hits")
             | JObject hits =>
                 setCache (match hits with Some files => files | None => [] end) ;;;
                 displayFilteredFiles
             end
       end)
      (fun error => setInnerHTML (ErrorView (message error))).

(** *** Filter buttons *)

(** A filter button: its [data-filter] attribute and whether its class list
    holds [active]. *)
Record Button := mkButton { marker : option jsstring; active : bool }.

(** The panel together with the buttons [initFilterButtons] found. *)
Record Page := mkPage { panel : State; buttons : list Button }.

Definition setActive (a : bool) (b : Button) : Button := mkButton (marker b) a.

(** [button.classList.add('active')] for the button at position [i]. *)
Fixpoint addActive (i : nat) (bs : list Button) : list Button :=
  match bs, i with
  | [], _ => []
  | b :: rest, O => setActive true b :: rest
  | b :: rest, S i' => b :: addActive i' rest
  end.

(** The listener [initFilterButtons] binds to the button at position [i]:
    every button loses [active], the clicked one gains it, the selector is
    read from the button and the list is shown anew.  A position without a
    button has no listener. *)
Definition buttonClick (i : nat) (pg : Page) : Page * result unit :=
  match nth_error (buttons pg) i with
  | None => (pg, Ok tt)
  | Some button =>
      let bs := addActive i (map (setActive false) (buttons pg)) in
      let (st, r) := filterButtonClick (marker button) (panel pg) in
      (mkPage st bs, r)
  end.

(** *** Opening a folder *)

(** The parsed body of an answer of the open-folder endpoint: [null], or an
    object whose [detail] is a string when it is present. *)
Inductive Reply :=
| RNull
| RObject (detail : option jsstring).

Inductive Post :=
| PostRejected (e : Error)
| PostResponse (status : Z) (body : result Reply).

(** What the POST to [/api/open-folder] with the body [{path}] settles
    to. *)
Variable post : jsstring -> Post.

Definition openFolder (path : jsstring) : result Reply :=
  match post path with
  | PostRejected e => Throw e
  | PostResponse status body =>
      if negb (ok status) then
        match body with
        | Throw e => Throw e
        | Ok RNull => Throw (cannotRead "null" "detail")
        | Ok (RObject detail) =>
            Throw (mkError "Error"
                     (if falsy detail then str "Unknown error"
                      else orEmpty detail))
        end
      else body
  end.

(** A row as [attachClickHandlers] sees it: its [data-path] attribute and
    its [style.opacity]; and the messages shown by [alert] so far. *)
Record Item := mkItem { dataPath : option jsstring; opacity : jsstring }.
Record Ui := mkUi { item : Item; alerts : list jsstring }.

Definition setOpacity (o : jsstring) (ui : Ui) : Ui :=
  mkUi (mkItem (dataPath (item ui)) o) (alerts ui).

Definition alert (text : jsstring) (ui : Ui) : Ui :=
  mkUi (item ui) (alerts ui ++ [text]).

(** The words in front of the message of a failed opening. *)
Definition couldNotOpen : jsstring :=
  [0x30D5; 0x30A9; 0x30EB; 0x30C0; 0x3092; 0x958B; 0x3051; 0x307E; 0x305B;
   0x3093; 0x3067; 0x3057; 0x305F; 58; 32].

(** The listener [attachClickHandlers] binds to a row, run to completion:
    [try] the opening, [catch] with an alert, [finally] restore the
    opacity. *)
Definition itemClick (ui : Ui) : Ui :=
  let path := dataPath (item ui) in
  if falsy path then ui
  else
    let ui := setOpacity (str "0.6") ui in
    let ui :=
      match openFolder (orEmpty path) with
      | Ok _ => ui
      | Throw error => alert (couldNotOpen ++ message error) ui
      end in
    setOpacity (str "1") ui.

End Host.

End Recent.

(* ------------------------------------------------------------------------- *)
(** ** What the panel is expected to do, in the words of its description      *)
(* ------------------------------------------------------------------------- *)

Module Spec.

Local Open Scope N_scope.

(** The predicate of each selector on the lower-cased extension; a selector
    other than [pdf], [word] and [excel] keeps everything. *)
Definition selects (selector : jsstring) (file : Recent.RecentFile) : bool :=
  let ext := toLowerCase (orEmpty (Recent.extension file)) in
  if streq selector (str "pdf") then streq ext (str ".pdf")
  else if streq selector (str "word") then
    streq ext (str ".doc") || streq ext (str ".docx")
  else if streq selector (str "excel") then
    streq ext (str ".xls") || streq ext (str ".xlsx")
  else true.

Definition filter (cache : list Recent.RecentFile) (selector : jsstring)
    : list Recent.RecentFile :=
  List.filter (selects selector) cache.

(** The five characters with a meaning in markup, and the entity of each. *)
Definition special (c : codeunit) : bool :=
  (c =? 38) || (c =? 60) || (c =? 62) || (c =? 34) || (c =? 39).

Definition entity (c : codeunit) : jsstring :=
  if c =? 38 then str "&amp;"
  else if c =? 60 then str "&lt;"
  else if c =? 62 then str "&gt;"
  else if c =? 34 then str "&quot;"
  else if c =? 39 then str "&#039;"
  else [c].

Definition escape (s : jsstring) : jsstring := flat_map entity s.

(** Text in which a special character occurs only as the ampersand that
    opens one of the five entities. *)
Inductive Escaped : jsstring -> Prop :=
| Escaped_nil : Escaped []
| Escaped_plain c s : special c = false -> Escaped s -> Escaped (c :: s)
| Escaped_entity c s : special c = true -> Escaped s -> Escaped (entity c ++ s).

(** Markup-significant characters other than the ampersand. *)
Definition delimiter (c : codeunit) : bool :=
  (c =? 60) || (c =? 62) || (c =? 34) || (c =? 39).

(** Forward slashes turned into backslashes. *)
Definition backslashed (p : jsstring) : jsstring :=
  map (fun c => if c =? 47 then 92 else c) p.

(** The seven office-document extensions. *)
Definition documentExtensions : list jsstring :=
  map str [".pdf"; ".doc"; ".docx"; ".xls"; ".xlsx"; ".ppt"; ".pptx"]%string.

(** The extensions on which the two icon tables give one glyph: the office
    documents, [.txt] (the shared table gives it the default glyph), and
    whatever the shared table does not list. *)
Definition sameIcon (ext : jsstring) : Prop :=
  In ext documentExtensions \/ ext = str ".txt"
  \/ own Common.iconMap ext = None.

(** A file with its extension in lower case. *)
Definition lowered (file : Recent.RecentFile) : Recent.RecentFile :=
  Recent.mkFile (Recent.path file) (Recent.filename file)
    (option_map toLowerCase (Recent.extension file))
    (Recent.modified_at file).

(** Every file has a name. *)
Definition named (files : list Recent.RecentFile) : Prop :=
  Forall (fun f => Recent.filename f <> None) files.

End Spec.

(** A host for running the panel on examples: every timestamp parses to
    the epoch, and a date older than a week is printed as a fixed text. *)
Module Sample.
Definition epoch (_ : jsstring) : option Z := Some 0%Z.
Definition isoDay (_ : Z) : jsstring := str "1/1".

(** A server that answers every request with status 500, and one that
    answers with an object that has no [hits]. *)
Definition serverError (_ : jsstring) : Recent.Fetch :=
  Recent.Response 500 (Ok Recent.JNull).
Definition noHits (_ : jsstring) : Recent.Fetch :=
  Recent.Response 200 (Ok (Recent.JObject None)).

Definition report : Recent.RecentFile :=
  Recent.mkFile (Some (str "C:\docs\report.pdf")) (Some (str "report.pdf"))
                (Some (str ".pdf")) None.
(** An open-folder endpoint that refuses every path with a reason. *)
Definition refused (_ : jsstring) : Recent.Post :=
  Recent.PostResponse 404 (Ok (Recent.RObject (Some (str "Path not found")))).

(** A clipboard that accepts every text. *)
Definition clipboard (_ : jsstring) : result unit := Ok tt.
(** A file without a name, and a server that answers with two files of
    which the second has no name. *)
Definition nameless : Recent.RecentFile :=
  Recent.mkFile (Some (str "C:\docs\x.pdf")) None (Some (str ".pdf")) None.
Definition twoFiles (_ : jsstring) : Recent.Fetch :=
  Recent.Response 200 (Ok (Recent.JObject (Some [report; nameless]))).

(** The four buttons of the panel, the first one active. *)
Definition fourButtons : list Recent.Button :=
  [ Recent.mkButton (Some (str "all")) true;
    Recent.mkButton (Some (str "pdf")) false;
    Recent.mkButton (Some (str "word")) false;
    Recent.mkButton (Some (str "excel")) false ].
End Sample.

(* ------------------------------------------------------------------------- *)
(** ** Properties of the host fragments                                       *)
(* ------------------------------------------------------------------------- *)

Section StringFacts.

Local Open Scope N_scope.

Lemma streq_eq (a b : jsstring) : streq a b = true <-> a = b.
Proof.
  revert b; induction a as [|x a IH]; intros [|y b]; simpl;
    try (split; (reflexivity || discriminate)).
  rewrite andb_true_iff, N.eqb_eq, IH.
  split; [intros [-> ->]; reflexivity | intros [= -> ->]; auto].
Qed.

Lemma streq_refl (a : jsstring) : streq a a = true.
Proof. apply streq_eq; reflexivity. Qed.

Lemma streq_neq (a b : jsstring) : streq a b = false <-> a <> b.
Proof.
  rewrite <- streq_eq. destruct (streq a b); split; congruence.
Qed.

Lemma replaceAll_app c r (s t : jsstring) :
  replaceAll c r (s ++ t) = replaceAll c r s ++ replaceAll c r t.
Proof. unfold replaceAll. apply flat_map_app. Qed.

Lemma replaceAll_cons c r x (s : jsstring) :
  replaceAll c r (x :: s) = (if x =? c then r else [x]) ++ replaceAll c r s.
Proof. reflexivity. Qed.

Lemma replaceAll_unit c d (s : jsstring) :
  replaceAll c [d] s = map (fun x => if x =? c then d else x) s.
Proof.
  induction s as [|x s IH]; [reflexivity|].
  rewrite replaceAll_cons, IH. simpl. destruct (x =? c); reflexivity.
Qed.

Lemma split_not_nil sep (s : jsstring) : split sep s <> [].
Proof.
  destruct s as [|x s]; simpl; [discriminate|].
  destruct (x =? sep); [discriminate|].
  destruct (split sep s); discriminate.
Qed.

Lemma split_app sep (d f : jsstring) :
  split sep (d ++ sep :: f) = split sep d ++ split sep f.
Proof.
  induction d as [|x d IH]; simpl.
  - rewrite N.eqb_refl. reflexivity.
  - destruct (x =? sep); [now rewrite IH|].
    rewrite IH. pose proof (split_not_nil sep d) as Hne.
    destruct (split sep d); [contradiction|reflexivity].
Qed.

Lemma split_plain sep (f : jsstring) :
  ~ In sep f -> split sep f = [f].
Proof.
  induction f as [|x f IH]; simpl; intros Hn; [reflexivity|].
  destruct (N.eqb_spec x sep) as [->|_]; [exfalso; auto|].
  rewrite IH by tauto. reflexivity.
Qed.

Lemma join_split sep (s : jsstring) : join [sep] (split sep s) = s.
Proof.
  induction s as [|x s IH]; [reflexivity|].
  simpl. destruct (N.eqb_spec x sep) as [->|_].
  - pose proof (split_not_nil sep s) as Hne.
    destruct (split sep s) eqn:E; [contradiction|].
    simpl. simpl in IH. now rewrite IH.
  - pose proof (split_not_nil sep s) as Hne.
    destruct (split sep s) as [|seg segs] eqn:E; [contradiction|].
    destruct segs; simpl in *; now rewrite <- IH.
Qed.

Lemma filter_all {A} (l : list A) : List.filter (fun _ => true) l = l.
Proof. induction l; simpl; congruence. Qed.

End StringFacts.

(* ------------------------------------------------------------------------- *)
(** ** Filtering                                                              *)
(* ------------------------------------------------------------------------- *)

Section Filtering.

Import Recent.

Ltac selector_is sel H :=
  apply streq_eq in H; subst sel.

(** On [all], [pdf], [word], [excel] and on every selector that names
    nothing [FILTER_MAP] inherits, the files shown are the files the
    selector's predicate keeps, in cache order. *)
Lemma filteredFiles_spec (selector : jsstring) (cache : list RecentFile) :
  inherited selector = Undefined ->
  filteredFiles selector cache = Spec.filter cache selector.
Proof.
  intros Hin. unfold filteredFiles, Spec.filter.
  destruct (streq selector (str "all")) eqn:Hall.
  { selector_is selector Hall. simpl. symmetry. apply filter_all. }
  simpl negb. cbv iota. unfold get, FILTER_MAP, own. rewrite Hall.
  destruct (streq selector (str "pdf")) eqn:Hpdf.
  { selector_is selector Hpdf. reflexivity. }
  destruct (streq selector (str "word")) eqn:Hword.
  { selector_is selector Hword. reflexivity. }
  destruct (streq selector (str "excel")) eqn:Hexcel.
  { selector_is selector Hexcel. reflexivity. }
  rewrite Hin. simpl.
  unfold Spec.selects. rewrite Hpdf, Hword, Hexcel.
  symmetry. apply filter_all.
Qed.

(** A file without extension is never kept by a selector that finds a
    member of [Object.prototype], whatever the text of that member. *)
Lemma filteredFiles_inherited (selector : jsstring) (file : RecentFile) :
  inherited selector <> Undefined ->
  extension file = None ->
  filteredFiles selector [file] = [].
Proof.
  intros Hin Hext. unfold filteredFiles.
  destruct (streq selector (str "all")) eqn:Hall.
  { selector_is selector Hall. now contradiction Hin. }
  simpl negb. cbv iota. unfold get, FILTER_MAP, own. rewrite Hall.
  destruct (streq selector (str "pdf")) eqn:Hpdf.
  { selector_is selector Hpdf. now contradiction Hin. }
  destruct (streq selector (str "word")) eqn:Hword.
  { selector_is selector Hword. now contradiction Hin. }
  destruct (streq selector (str "excel")) eqn:Hexcel.
  { selector_is selector Hexcel. now contradiction Hin. }
  destruct (inherited selector) eqn:E; try congruence.
  - unfold inherited in E.
    repeat match type of E with
           | (if ?b then _ else _) = _ => destruct b
           end; discriminate.
  - unfold inherited in E.
    repeat match type of E with
           | (if ?b then _ else _) = _ => destruct b
           end; discriminate.
  - simpl. rewrite Hext. reflexivity.
  - simpl. rewrite Hext. reflexivity.
Qed.

(** C1 (the code departs from it): the selector [constructor] is outside
    all, pdf, word, excel, yet it does not behave as [all]: the lookup in
    [FILTER_MAP] finds the constructor every object inherits, the guard takes
    it for a filter extension, and a cache holding one [.pdf] file is shown
    as empty, where [all] shows the file. *)
Theorem filteredFiles_constructor :
  let file := mkFile (Some (str "C:\docs\a.pdf")) (Some (str "a.pdf"))
                     (Some (str ".pdf")) None in
  get FILTER_MAP (str "constructor") = Native (str "Object")
  /\ filteredFiles (str "constructor") [file] = []
  /\ filteredFiles (str "all") [file] = [file]
  /\ Spec.filter [file] (str "constructor") = [file].
Proof. vm_compute. repeat split. Qed.

End Filtering.

(* ------------------------------------------------------------------------- *)
(** ** Escaping                                                               *)
(* ------------------------------------------------------------------------- *)

Section Escaping.

Import Recent.
Local Open Scope N_scope.

Lemma replaced5_unit (x : codeunit) : replaced5 [x] = Spec.entity x.
Proof.
  unfold replaced5, Spec.entity, replaceAll. cbn [flat_map app].
  destruct (x =? 38) eqn:E38; [reflexivity|].
  cbn [flat_map app]. destruct (x =? 60) eqn:E60; [reflexivity|].
  cbn [flat_map app]. destruct (x =? 62) eqn:E62; [reflexivity|].
  cbn [flat_map app]. destruct (x =? 34) eqn:E34; [reflexivity|].
  cbn [flat_map app]. destruct (x =? 39) eqn:E39; reflexivity.
Qed.

Lemma replaced5_app (s t : jsstring) :
  replaced5 (s ++ t) = replaced5 s ++ replaced5 t.
Proof. unfold replaced5. now rewrite !replaceAll_app. Qed.

Lemma replaced5_escape (s : jsstring) : replaced5 s = Spec.escape s.
Proof.
  induction s as [|x s IH]; [reflexivity|].
  change (x :: s) with ([x] ++ s).
  rewrite replaced5_app, replaced5_unit, IH. reflexivity.
Qed.

(** The chain of replacements is the character-by-character substitution:
    no entity written by one replacement is touched by a later one. *)
Lemma escapeHTML_escape (s : option jsstring) :
  escapeHTML s = Spec.escape (orEmpty s).
Proof.
  destruct s as [[|x s]|]; try reflexivity.
  unfold escapeHTML. simpl falsy. cbv iota.
  apply (replaced5_escape (x :: s)).
Qed.

Lemma escape_Escaped (s : jsstring) : Spec.Escaped (Spec.escape s).
Proof.
  induction s as [|x s IH]; simpl; [constructor|].
  destruct (Spec.special x) eqn:E.
  - now apply Spec.Escaped_entity.
  - replace (Spec.entity x) with [x].
    + now apply Spec.Escaped_plain.
    + unfold Spec.special in E. unfold Spec.entity.
      repeat (apply orb_false_iff in E; destruct E as [E ?]).
      now repeat match goal with H : (_ =? _) = false |- _ => rewrite H; clear H end.
Qed.

Lemma entity_no_delimiter (x : codeunit) :
  Forall (fun c => Spec.delimiter c = false) (Spec.entity x).
Proof.
  unfold Spec.entity.
  destruct (x =? 38); [repeat constructor|].
  destruct (x =? 60) eqn:E60; [repeat constructor|].
  destruct (x =? 62) eqn:E62; [repeat constructor|].
  destruct (x =? 34) eqn:E34; [repeat constructor|].
  destruct (x =? 39) eqn:E39; [repeat constructor|].
  constructor; [|constructor].
  unfold Spec.delimiter. now rewrite E60, E62, E34, E39.
Qed.

Lemma escape_no_delimiter (s : jsstring) :
  Forall (fun c => Spec.delimiter c = false) (Spec.escape s).
Proof.
  induction s as [|x s IH]; simpl; [constructor|].
  apply Forall_app; split; [apply entity_no_delimiter | exact IH].
Qed.

End Escaping.

(* ------------------------------------------------------------------------- *)
(** ** Folder path                                                            *)
(* ------------------------------------------------------------------------- *)

Section FolderPath.

Import Recent.
Local Open Scope N_scope.

Lemma getFolderPath_present (p : jsstring) :
  p <> [] ->
  getFolderPath (Some p)
  = join [92] (removelast (split 92 (Spec.backslashed p))).
Proof.
  intros Hp. destruct p as [|x p]; [contradiction|].
  unfold getFolderPath. simpl falsy. cbv iota. simpl orEmpty.
  rewrite replaceAll_unit. reflexivity.
Qed.

(** C9: the folder path of a path is the path with every forward slash
    turned into a backslash, split on backslash, without its last segment,
    joined again with backslash: that is, what precedes the last separator
    (nothing when there is no separator); an empty or absent path has an
    empty folder path. *)
Theorem getFolderPath_spec (p : jsstring) :
  p <> [] ->
  getFolderPath (Some p)
  = join [92] (removelast (split 92 (Spec.backslashed p)))
  /\ (forall d f, Spec.backslashed p = d ++ 92 :: f -> ~ In 92 f ->
        getFolderPath (Some p) = d)
  /\ (~ In 92 (Spec.backslashed p) -> getFolderPath (Some p) = [])
  /\ getFolderPath (Some []) = []
  /\ getFolderPath None = [].
Proof.
  intros Hp. rewrite (getFolderPath_present Hp).
  split; [reflexivity|]. split; [|split; [|split; reflexivity]].
  - intros d f E Hf. rewrite E, split_app, (split_plain _ _ Hf).
    rewrite removelast_app by discriminate. simpl removelast.
    rewrite app_nil_r. apply join_split.
  - intros Hn. rewrite (split_plain _ _ Hn). reflexivity.
Qed.

Lemma getFolderPath_spec_witness :
  getFolderPath (Some (str "C:/docs/reports\q3.xlsx")) = str "C:\docs\reports".
Proof.
  refine (proj1 (proj2 (@getFolderPath_spec (str "C:/docs/reports\q3.xlsx") _))
            (str "C:\docs\reports") (str "q3.xlsx") _ _).
  - discriminate.
  - reflexivity.
  - vm_compute. intros H.
    repeat match goal with H : _ \/ _ |- _ => destruct H as [H|H] end;
      (discriminate || contradiction).
Defined.

End FolderPath.

(* ------------------------------------------------------------------------- *)
(** ** Rows                                                                   *)
(* ------------------------------------------------------------------------- *)

Section Rows.

Import Recent.
Local Open Scope N_scope.

Variable parseDate : jsstring -> option Z.
Variable now : Z.
Variable monthDay : Z -> jsstring.

Local Abbreviation row := (createFileItemHTML parseDate now monthDay).
Local Abbreviation label := (formatRelativeDate parseDate now monthDay).

(** The row of a file with a name, each escaped interpolation written as the
    character-by-character substitution. *)
Lemma createFileItemHTML_named (file : RecentFile) (name : jsstring) :
  filename file = Some name ->
  row file
  = Ok (rowTemplate
          (Spec.escape (orEmpty (path file)))
          (Spec.escape name)
          (toStr (getFileIcon (extension file)))
          (Spec.escape (displayName name))
          (Spec.escape (getFolderPath (path file)))
          (Spec.escape (getFolderPath (path file)))
          (label (modified_at file))).
Proof.
  intros Hname. unfold createFileItemHTML. rewrite Hname.
  rewrite !escapeHTML_escape. reflexivity.
Qed.

(** C4: in the markup of a row, the path attribute, the title (the file
    name), the shown name and the folder path (attribute and text) are the
    file's strings with each of the five characters replaced by its entity;
    what is inserted holds no angle bracket and no quote, and an ampersand
    only where it opens an entity. *)
Theorem createFileItemHTML_escaped (file : RecentFile) (name : jsstring) :
  filename file = Some name ->
  let inserted :=
    [ orEmpty (path file); name; displayName name;
      getFolderPath (path file) ] in
  row file
  = Ok (rowTemplate
          (Spec.escape (orEmpty (path file)))
          (Spec.escape name)
          (toStr (getFileIcon (extension file)))
          (Spec.escape (displayName name))
          (Spec.escape (getFolderPath (path file)))
          (Spec.escape (getFolderPath (path file)))
          (label (modified_at file)))
  /\ (forall s, escapeHTML (Some s) = Spec.escape s)
  /\ (forall s, In s inserted ->
        Spec.Escaped (Spec.escape s)
        /\ Forall (fun c => Spec.delimiter c = false) (Spec.escape s)).
Proof.
  intros Hname inserted. split; [now apply createFileItemHTML_named|].
  split; [intros s; apply (escapeHTML_escape (Some s))|].
  intros s _. split; [apply escape_Escaped | apply escape_no_delimiter].
Qed.

(** C7: the shown name is the file name when it has at most 30 code units,
    and its first 27 code units followed by three dots when it has more; so
    a name of 35 is shown as 27 of its own and the dots, and a name of 30 is
    shown as it is. *)
Theorem displayName_spec (file : RecentFile) (name : jsstring) :
  filename file = Some name ->
  (exists dataPath title icon folder date,
     row file
     = Ok (rowTemplate dataPath title icon
             (escapeHTML (Some (displayName name))) folder folder date))
  /\ (List.length name <= 30 -> displayName name = name)%nat
  /\ (30 < List.length name ->
        displayName name = firstn 27 name ++ str "...")%nat
  /\ (List.length name = 35 ->
        displayName name = firstn 27 name ++ str "..."
        /\ List.length (displayName name) = 30)%nat
  /\ (List.length name = 30 -> displayName name = name)%nat.
Proof.
  intros Hname.
  assert (Hshort : (List.length name <= 30 -> displayName name = name)%nat).
  { intros H. unfold displayName.
    destruct (Nat.ltb_spec 30 (List.length name)); [lia|reflexivity]. }
  assert (Hlong : (30 < List.length name ->
                   displayName name = firstn 27 name ++ str "...")%nat).
  { intros H. unfold displayName.
    destruct (Nat.ltb_spec 30 (List.length name)); [reflexivity|lia]. }
  split; [|repeat split; auto].
  - unfold createFileItemHTML. rewrite Hname. repeat eexists.
  - apply Hlong. lia.
  - rewrite Hlong by lia. rewrite length_app, length_firstn.
    change (List.length (str "...")) with 3%nat. lia.
  - intros H. apply Hshort. lia.
Qed.

(** C10: a file with a name always has a row, and when it has nothing but
    a name the row carries the default glyph, an empty folder path and an
    empty date label; a file without a name has none: reading the length of
    its name throws. *)
Theorem createFileItemHTML_domain (file : RecentFile) :
  (forall name, filename file = Some name -> exists html, row file = Ok html)
  /\ (forall name, file = mkFile None (Some name) None None ->
        row file
        = Ok (rowTemplate [] (Spec.escape name) Glyph.page
                (Spec.escape (displayName name)) [] [] []))
  /\ (filename file = None ->
        row file = Throw (cannotRead "undefined" "length")).
Proof.
  split; [|split].
  - intros name Hname. rewrite (createFileItemHTML_named _ Hname). eauto.
  - intros name ->.
    rewrite (@createFileItemHTML_named (mkFile None (Some name) None None)
               name eq_refl).
    reflexivity.
  - intros Hnone. unfold createFileItemHTML. rewrite Hnone. reflexivity.
Qed.

End Rows.

Section RowWitnesses.

Import Recent Sample.
Local Open Scope N_scope.

Lemma createFileItemHTML_escaped_witness :
  Spec.Escaped (Spec.escape (str "<b>&.pdf"))
  /\ Forall (fun c => Spec.delimiter c = false) (Spec.escape (str "<b>&.pdf")).
Proof.
  refine (proj2 (proj2
    (@createFileItemHTML_escaped epoch 0%Z isoDay
       (mkFile (Some (str "C:\a\<b>&.pdf")) (Some (str "<b>&.pdf"))
               (Some (str ".pdf")) None)
       (str "<b>&.pdf") eq_refl)) (str "<b>&.pdf") _).
  simpl. auto.
Defined.

Lemma displayName_spec_witness :
  displayName (str "quarterly-financial-report-2024.xls")
  = str "quarterly-financial-report-..."
  /\ List.length (displayName (str "quarterly-financial-report-2024.xls")) = 30%nat.
Proof.
  refine (proj1 (proj2 (proj2 (proj2
    (@displayName_spec epoch 0%Z isoDay
       (mkFile None (Some (str "quarterly-financial-report-2024.xls")) None None)
       (str "quarterly-financial-report-2024.xls") eq_refl)))) _).
  reflexivity.
Defined.

Lemma createFileItemHTML_domain_witness :
  createFileItemHTML epoch 0%Z isoDay (mkFile None None None None)
  = Throw (cannotRead "undefined" "length")
  /\ exists html,
       createFileItemHTML epoch 0%Z isoDay
         (mkFile None (Some (str "a.txt")) None None) = Ok html.
Proof.
  split.
  - exact (proj2 (proj2
      (@createFileItemHTML_domain epoch 0%Z isoDay (mkFile None None None None)))
      eq_refl).
  - exact (proj1
      (@createFileItemHTML_domain epoch 0%Z isoDay
         (mkFile None (Some (str "a.txt")) None None))
      (str "a.txt") eq_refl).
Defined.

End RowWitnesses.

(* ------------------------------------------------------------------------- *)
(** ** Relative date label                                                    *)
(* ------------------------------------------------------------------------- *)

Section DateLabel.

Import Recent.
Local Open Scope Z_scope.

Variable parseDate : jsstring -> option Z.
Variable now : Z.
Variable monthDay : Z -> jsstring.

Local Abbreviation label := (formatRelativeDate parseDate now monthDay).

Lemma label_absent (stamp : option jsstring) :
  falsy stamp = true -> label stamp = [].
Proof. intros H. unfold formatRelativeDate. now rewrite H. Qed.

Lemma div_below (e c k : Z) : 0 < c -> (e / c <? k) = (e <? k * c).
Proof.
  intros Hc. destruct (Z.ltb_spec e (k * c)) as [H|H].
  - apply Z.ltb_lt. apply Z.div_lt_upper_bound; lia.
  - apply Z.ltb_ge. apply Z.div_le_lower_bound; lia.
Qed.

(** The label of a present, valid timestamp, by elapsed milliseconds. *)
Lemma formatRelativeDate_cases (stamp : jsstring) (date : Z) :
  stamp <> [] ->
  parseDate stamp = Some date ->
  label (Some stamp) =
    if now - date <? 60000 then Word.ima
    else if now - date <? 3600000 then
      ofInt ((now - date) / 60000) ++ Word.fun_mae
    else if now - date <? 86400000 then
      ofInt ((now - date) / 3600000) ++ Word.jikan_mae
    else if now - date <? 604800000 then
      ofInt ((now - date) / 86400000) ++ Word.nichi_mae
    else monthDay date.
Proof.
  intros Hstamp Hparse.
  unfold formatRelativeDate. destruct stamp as [|c stamp]; [contradiction|].
  simpl falsy. cbv iota. simpl orEmpty. rewrite Hparse. cbv zeta.
  change (1000 * 60 * 60 * 24) with 86400000.
  change (1000 * 60 * 60) with 3600000.
  change (1000 * 60) with 60000.
  rewrite !div_below by lia. reflexivity.
Qed.

(** C6: for a present timestamp that parses to [date], with
    [elapsed = now - date] in milliseconds: under a minute the label is the
    word for now; under an hour, the whole minutes and the word for minutes
    ago; under a day, the whole hours and the word for hours ago; under seven
    days, the whole days and the word for days ago; from seven days on, the
    month and day of the date.  So 90 seconds give 1 minute ago, 25 hours
    give 1 day ago and 10 days give a month and day.  An absent timestamp
    gives the empty label. *)
Theorem formatRelativeDate_spec (stamp : jsstring) (date : Z) :
  stamp <> [] ->
  parseDate stamp = Some date ->
  let elapsed := now - date in
  (elapsed < 60000 -> label (Some stamp) = Word.ima)
  /\ (60000 <= elapsed < 3600000 ->
        label (Some stamp) = ofInt (elapsed / 60000) ++ Word.fun_mae)
  /\ (3600000 <= elapsed < 86400000 ->
        label (Some stamp) = ofInt (elapsed / 3600000) ++ Word.jikan_mae)
  /\ (86400000 <= elapsed < 604800000 ->
        label (Some stamp) = ofInt (elapsed / 86400000) ++ Word.nichi_mae)
  /\ (604800000 <= elapsed -> label (Some stamp) = monthDay date)
  /\ (elapsed = 90 * 1000 -> label (Some stamp) = str "1" ++ Word.fun_mae)
  /\ (elapsed = 25 * 3600000 -> label (Some stamp) = str "1" ++ Word.nichi_mae)
  /\ (elapsed = 10 * 86400000 -> label (Some stamp) = monthDay date)
  /\ label None = [].
Proof.
  intros Hstamp Hparse elapsed.
  pose proof (formatRelativeDate_cases Hstamp Hparse) as Hlabel.
  fold elapsed in Hlabel.
  rewrite Hlabel.
  repeat split; intros H;
    repeat match goal with
           | |- context [?a <? ?b] => destruct (Z.ltb_spec a b); try lia
           end;
    try reflexivity.
  - rewrite H. reflexivity.
  - rewrite H. reflexivity.
Qed.

End DateLabel.

Lemma formatRelativeDate_spec_witness :
  Recent.formatRelativeDate Sample.epoch 90000 Sample.isoDay
    (Some (str "1970-01-01T00:00:00Z"))
  = str "1" ++ Word.fun_mae.
Proof.
  refine (proj1 (proj2
    (@formatRelativeDate_spec Sample.epoch 90000%Z Sample.isoDay
       (str "1970-01-01T00:00:00Z") 0%Z _ eq_refl)) _).
  - discriminate.
  - simpl. lia.
Defined.

(* ------------------------------------------------------------------------- *)
(** ** Fetching                                                               *)
(* ------------------------------------------------------------------------- *)

Section Fetching.

Import Recent.
Local Open Scope Z_scope.

Variable parseDate : jsstring -> option Z.
Variable now : Z.
Variable monthDay : Z -> jsstring.
Variable fetch : jsstring -> Fetch.

Local Abbreviation load := (loadRecentFiles parseDate now monthDay fetch).

Ltac run :=
  unfold loadRecentFiles, displayFilteredFiles, tryCatch, bind, ret, throw,
    lift, read, getElementById, setInnerHTML, setCache, attachClickHandlers;
  cbn [container currentFilter allFilesCache negb fst snd].

Ltac step :=
  cbn [container currentFilter allFilesCache negb fst snd]; cbv beta.

Lemma filteredFiles_nil (selector : jsstring) : filteredFiles selector [] = [].
Proof.
  unfold filteredFiles.
  destruct (negb _); [|reflexivity].
  destruct (truthy _); reflexivity.
Qed.

(** Whatever the request settles to, the call completes: an exception
    raised after the loading view is written ends in the handler. *)
Lemma loadRecentFiles_completes (days : Z) (st : State) :
  snd (load days st) = Ok tt.
Proof.
  run. destruct (container st); [|reflexivity]. step.
  destruct (fetch _) as [e|status body]; [reflexivity|].
  destruct (ok status); [|reflexivity]. step.
  destruct body as [[|hits]|e]; try reflexivity. step.
  match goal with |- context [Nat.eqb ?a ?b] => destruct (Nat.eqb a b) end;
    [reflexivity|].
  match goal with |- context [mapRows ?p ?n ?m ?l] =>
    destruct (mapRows p n m l) end; reflexivity.
Qed.

(** C2: whatever the cache holds, when the request is rejected, or answered
    with a status outside 200-299, or answered with a body that does not
    parse, the container ends with the error view carrying the message of
    the failure, the cache and the selector are what they were, and the call
    completes without throwing. *)
Theorem loadRecentFiles_failure (days : Z) (st : State) (before : View) :
  container st = Some before ->
  let failed message :=
    (mkState (currentFilter st) (allFilesCache st) (Some (ErrorView message)),
     Ok tt) in
  (forall e, fetch (request days) = Rejected e ->
     load days st = failed (message e))
  /\ (forall status body,
        fetch (request days) = Response status body -> ok status = false ->
        load days st = failed (str "API error: " ++ ofInt status))
  /\ (forall status e,
        fetch (request days) = Response status (Throw e) -> ok status = true ->
        load days st = failed (message e)).
Proof.
  intros Hc failed. unfold failed. repeat split.
  - intros e He. run. rewrite Hc. cbn [negb]. rewrite He. step. reflexivity.
  - intros status body He Hok. run. rewrite Hc. cbn [negb].
    rewrite He, Hok. step. reflexivity.
  - intros status e He Hok. run. rewrite Hc. cbn [negb].
    rewrite He, Hok. step. reflexivity.
Qed.

(** A click on a filter button shows the cache anew and leaves it as it
    is, whether or not a row throws. *)
Lemma filterButtonClick_cache (marker : option jsstring) (st : State) :
  allFilesCache
    (fst (filterButtonClick parseDate now monthDay marker st))
  = allFilesCache st.
Proof.
  unfold filterButtonClick, setFilter. run.
  destruct (container st); [|reflexivity]. step.
  match goal with |- context [Nat.eqb ?a ?b] => destruct (Nat.eqb a b) end;
    [reflexivity|].
  match goal with |- context [mapRows ?p ?n ?m ?l] =>
    destruct (mapRows p n m l) end; reflexivity.
Qed.

(** C8: a response with a good status whose body parses to an object
    without [hits] leaves the cache empty and does not fail; so does one
    whose [hits] is the empty array; both end in the empty view, which is
    not the error view. *)
Theorem loadRecentFiles_empty (days : Z) (st : State) (before : View) :
  container st = Some before ->
  let empty :=
    (mkState (currentFilter st) [] (Some EmptyView), Ok tt) in
  (forall status,
     fetch (request days) = Response status (Ok (JObject None)) ->
     ok status = true ->
     load days st = empty)
  /\ (forall status,
        fetch (request days) = Response status (Ok (JObject (Some []))) ->
        ok status = true ->
        load days st = empty)
  /\ (forall message, EmptyView <> ErrorView message).
Proof.
  intros Hc empty. unfold empty. repeat split.
  - intros status He Hok. run. rewrite Hc. cbn [negb].
    rewrite He, Hok. step. rewrite filteredFiles_nil. reflexivity.
  - intros status He Hok. run. rewrite Hc. cbn [negb].
    rewrite He, Hok. step. rewrite filteredFiles_nil. reflexivity.
  - discriminate.
Qed.

End Fetching.

Section FetchWitnesses.

Import Recent Sample.

Lemma loadRecentFiles_failure_witness :
  loadRecentFiles epoch 0 isoDay serverError 7
    (mkState (str "all") [report] (Some LoadingView))
  = (mkState (str "all") [report] (Some (ErrorView (str "API error: 500"))),
     Ok tt).
Proof.
  exact (proj1 (proj2
    (@loadRecentFiles_failure epoch 0%Z isoDay serverError 7%Z
       (mkState (str "all") [report] (Some LoadingView)) LoadingView eq_refl))
    500%Z (Ok JNull) eq_refl eq_refl).
Defined.

Lemma loadRecentFiles_empty_witness :
  loadRecentFiles epoch 0 isoDay noHits 7
    (mkState (str "word") [report] (Some LoadingView))
  = (mkState (str "word") [] (Some EmptyView), Ok tt).
Proof.
  exact (proj1
    (@loadRecentFiles_empty epoch 0%Z isoDay noHits 7%Z
       (mkState (str "word") [report] (Some LoadingView)) LoadingView eq_refl)
    200%Z eq_refl eq_refl).
Defined.

End FetchWitnesses.

(* ------------------------------------------------------------------------- *)
(** ** Icons                                                                  *)
(* ------------------------------------------------------------------------- *)

Section Icons.

Import Recent.
Local Open Scope N_scope.

Lemma own_in (o : object) (k : jsstring) (v : value) :
  own o k = Some v -> In (k, v) o.
Proof.
  induction o as [|[k' v'] o IH]; simpl; [discriminate|].
  destruct (streq k k') eqn:E.
  - apply streq_eq in E. intros [= ->]. left. now subst.
  - intros H. right. now apply IH.
Qed.

(** No inherited member has a name that starts with a dot. *)
Lemma inherited_dotted (s : jsstring) : inherited (46 :: s) = Undefined.
Proof. reflexivity. Qed.

(** Nor does the lower-case form of an extension that starts with a dot, or
    of an empty or absent extension. *)
Lemma inherited_lower_dotted (s : jsstring) :
  inherited (toLowerCase (46 :: s)) = Undefined
  /\ inherited (toLowerCase (orEmpty (Some []))) = Undefined
  /\ inherited (toLowerCase (orEmpty None)) = Undefined.
Proof. repeat split; reflexivity. Qed.

Lemma in_documentExtensions (k : jsstring) :
  In k Spec.documentExtensions <->
  streq k (str ".pdf") || streq k (str ".doc") || streq k (str ".docx")
  || streq k (str ".xls") || streq k (str ".xlsx") || streq k (str ".ppt")
  || streq k (str ".pptx") = true.
Proof.
  rewrite !orb_true_iff, !streq_eq. unfold Spec.documentExtensions. simpl.
  intuition congruence.
Qed.

(** C5 (as the panel has it): for every extension whose lower-case form
    names no member inherited from [Object.prototype] (an empty or absent
    extension and every extension that starts with a dot are of this kind),
    the icon of a row is found by lower-casing the extension and looking it
    up in the panel's fixed table, which holds the seven office-document
    extensions and nothing else; every other such extension, and an empty or
    absent one, gets the default glyph. *)
Theorem getFileIcon_spec (extension : option jsstring) :
  let ext := toLowerCase (orEmpty extension) in
  inherited ext = Undefined ->
  (In ext Spec.documentExtensions ->
     own FILE_ICONS ext = Some (getFileIcon extension)
     /\ get Common.iconMap ext = getFileIcon extension)
  /\ (~ In ext Spec.documentExtensions ->
        getFileIcon extension = Str Glyph.page)
  /\ getFileIcon (Some []) = Str Glyph.page
  /\ getFileIcon None = Str Glyph.page.
Proof.
  intros ext Hin. unfold getFileIcon.
  change (toLowerCase (orEmpty extension)) with ext. clearbody ext.
  split; [|split; [|split; reflexivity]].
  - unfold Spec.documentExtensions. simpl In. intros H.
    repeat match goal with H : _ \/ _ |- _ => destruct H as [H|H] end;
      try contradiction; subst ext; split; reflexivity.
  - rewrite in_documentExtensions. intros Hout.
    apply not_true_is_false in Hout.
    repeat (apply orb_false_iff in Hout; destruct Hout as [Hout ?]).
    unfold get at 1. unfold FILE_ICONS at 1. unfold own.
    repeat match goal with
           | H : streq ext _ = false |- _ => rewrite H; clear H
           end.
    destruct (streq ext (str "default")); [reflexivity|].
    rewrite Hin. reflexivity.
Qed.

Lemma getFileIcon_spec_witness :
  getFileIcon (Some (str ".PNG")) = Str Glyph.page.
Proof.
  refine (proj1 (proj2
    (@getFileIcon_spec (Some (str ".PNG")) eq_refl)) _).
  rewrite in_documentExtensions. discriminate.
Defined.

(** The text an icon puts into a row holds none of the five characters:
    it is a glyph of the table, or the text of an inherited member. *)
Lemma getFileIcon_plain (extension : option jsstring) :
  Forall (fun c => Spec.special c = false) (toStr (getFileIcon extension)).
Proof.
  unfold getFileIcon. generalize (toLowerCase (orEmpty extension)) as ext.
  intros ext. unfold get at 1.
  destruct (own FILE_ICONS ext) as [v|] eqn:E.
  - apply own_in in E. unfold FILE_ICONS in E. simpl in E.
    repeat match type of E with _ \/ _ => destruct E as [E|E] end;
      try contradiction; injection E as <- <-; vm_compute; repeat constructor.
  - unfold inherited.
    destruct (streq ext (str "constructor")); [vm_compute; repeat constructor|].
    destruct (streq ext (str "__proto__")); [vm_compute; repeat constructor|].
    destruct (existsb (streq ext) objectPrototypeMethods) eqn:Hm;
      [|vm_compute; repeat constructor].
    apply existsb_exists in Hm. destruct Hm as [m [Hin Hm]].
    apply streq_eq in Hm. subst m.
    unfold objectPrototypeMethods in Hin. simpl in Hin.
    repeat match type of Hin with _ \/ _ => destruct Hin as [Hin|Hin] end;
      try contradiction; subst ext; vm_compute; repeat constructor.
Qed.

(** The panel's table has no entry for an image extension: a [.png] file
    gets the default glyph, where the shared table has the picture. *)
Lemma getFileIcon_png :
  own FILE_ICONS (str ".png") = None
  /\ getFileIcon (Some (str ".png")) = Str Glyph.page
  /\ Common.getFileIcon (Some (str ".png")) = Ok (Str Glyph.framed_picture)
  /\ Glyph.framed_picture <> Glyph.page.
Proof. vm_compute. repeat split. discriminate. Qed.

End Icons.

(* ------------------------------------------------------------------------- *)
(** ** The panel's utilities against the shared ones                          *)
(* ------------------------------------------------------------------------- *)

Section Inlining.

Local Open Scope Z_scope.

Ltac each_entry H :=
  repeat match type of H with
         | _ \/ _ => destruct H as [H|H]
         end.

Lemma icons_agree_iff (e : jsstring) :
  Common.getFileIcon (Some e) = Ok (Recent.getFileIcon (Some e))
  <-> Spec.sameIcon (toLowerCase e).
Proof.
  unfold Common.getFileIcon, Recent.getFileIcon, Spec.sameIcon. simpl orEmpty.
  generalize (toLowerCase e) as ext. intros ext. split.
  - intros Hsame. destruct (own Common.iconMap ext) as [v|] eqn:E; [|tauto].
    apply own_in in E. unfold Common.iconMap in E. simpl in E.
    each_entry E; try contradiction; injection E as <- <-;
      first [ left; simpl; tauto | right; left; reflexivity
            | exfalso; vm_compute in Hsame; discriminate ].
  - intros [H|[->|H]].
    + unfold Spec.documentExtensions in H. simpl in H.
      each_entry H; try contradiction; subst ext; reflexivity.
    + reflexivity.
    + f_equal. unfold get. rewrite H.
      assert (Hown : own Recent.FILE_ICONS ext = None
                     \/ ext = str "default").
      { unfold Recent.FILE_ICONS, own.
        unfold Common.iconMap in H. simpl in H.
        repeat match goal with
               | |- context [streq ext ?k] =>
                   destruct (streq ext k) eqn:?; try discriminate
               end; auto.
        right. now apply streq_eq. }
      destruct Hown as [Hown| ->]; [|reflexivity].
      rewrite Hown. unfold or_.
      destruct (truthy (inherited ext)); reflexivity.
Qed.

(** C3 (as the two scripts have it): the two icon functions give the same
    result on a present extension exactly when its lower-case form is an
    office-document extension, [.txt], or unknown to the shared table; the
    two date functions give the same label on a present, valid timestamp of
    at least 2 and less than 7 whole days ago. *)
Theorem utilities_agree
    (parseDate : jsstring -> option Z) (now : Z) (monthDay : Z -> jsstring)
    (e stamp : jsstring) (date : Z) :
  stamp <> [] ->
  parseDate stamp = Some date ->
  2 * 86400000 <= now - date < 7 * 86400000 ->
  (Common.getFileIcon (Some e) = Ok (Recent.getFileIcon (Some e))
   <-> Spec.sameIcon (toLowerCase e))
  /\ Recent.formatRelativeDate parseDate now monthDay (Some stamp)
     = Common.formatRelativeDate parseDate now (Some stamp)
  /\ Recent.formatRelativeDate parseDate now monthDay (Some stamp)
     = ofInt ((now - date) / 86400000) ++ Word.nichi_mae.
Proof.
  intros Hstamp Hparse Hrange. split; [apply icons_agree_iff|].
  rewrite (@formatRelativeDate_cases parseDate now monthDay stamp date Hstamp Hparse).
  repeat match goal with
         | |- context [?a <? ?b] => destruct (Z.ltb_spec a b); try lia
         end.
  split; [|reflexivity].
  unfold Common.formatRelativeDate.
  destruct stamp as [|c stamp]; [contradiction|].
  simpl falsy. cbv iota. simpl orEmpty. rewrite Hparse. cbv zeta.
  change (1000 * 60 * 60 * 24) with 86400000.
  assert (2 <= (now - date) / 86400000 < 7) as [Hlo Hhi].
  { split; [apply Z.div_le_lower_bound | apply Z.div_lt_upper_bound]; lia. }
  destruct (Z.eqb_spec ((now - date) / 86400000) 0); [lia|].
  destruct (Z.eqb_spec ((now - date) / 86400000) 1); [lia|].
  destruct (Z.ltb_spec ((now - date) / 86400000) 7); [reflexivity|lia].
Qed.

Lemma utilities_agree_witness :
  Recent.formatRelativeDate Sample.epoch 259200000 Sample.isoDay
    (Some (str "1970-01-01T00:00:00Z"))
  = Common.formatRelativeDate Sample.epoch 259200000
      (Some (str "1970-01-01T00:00:00Z")).
Proof.
  refine (proj1 (proj2
    (@utilities_agree Sample.epoch 259200000 Sample.isoDay (str ".PDF")
       (str "1970-01-01T00:00:00Z") 0 _ eq_refl _))).
  - discriminate.
  - simpl. lia.
Defined.

(** The two scripts do not give the same output on every input: a [.md]
    file has the default glyph in the panel and the memo in the shared
    table; an absent extension has the default glyph in the panel, and the
    shared function throws on it; an absent timestamp has the empty label in
    the panel and the word for unknown in the shared function; and a
    timestamp of 90 seconds ago is one minute ago in the panel, today in the
    shared function. *)
Lemma utilities_differ :
  Common.getFileIcon (Some (str ".md")) <> Ok (Recent.getFileIcon (Some (str ".md")))
  /\ Common.getFileIcon None <> Ok (Recent.getFileIcon None)
  /\ Recent.formatRelativeDate Sample.epoch 90000 Sample.isoDay None
     <> Common.formatRelativeDate Sample.epoch 90000 None
  /\ Recent.formatRelativeDate Sample.epoch 90000 Sample.isoDay
       (Some (str "1970-01-01T00:00:00Z"))
     <> Common.formatRelativeDate Sample.epoch 90000
          (Some (str "1970-01-01T00:00:00Z")).
Proof. vm_compute. repeat split; discriminate. Qed.

End Inlining.

(* ------------------------------------------------------------------------- *)
(** ** Further properties of filtering                                        *)
(* ------------------------------------------------------------------------- *)

Section FilteringMore.

Import Recent.
Local Open Scope N_scope.

Lemma lowerUnit_idem (c : codeunit) : lowerUnit (lowerUnit c) = lowerUnit c.
Proof.
  unfold lowerUnit.
  destruct ((65 <=? c) && (c <=? 90)) eqn:Hup.
  - apply andb_true_iff in Hup. destruct Hup as [Hlo Hhi].
    apply N.leb_le in Hlo, Hhi.
    replace ((65 <=? c + 32) && (c + 32 <=? 90)) with false
      by (symmetry; apply andb_false_iff; right; apply N.leb_gt; lia).
    replace (c + 32 =? 8490) with false
      by (symmetry; apply N.eqb_neq; lia).
    reflexivity.
  - destruct (c =? 8490) eqn:Hk; [reflexivity|].
    now rewrite Hup, Hk.
Qed.

Lemma toLowerCase_idem (s : jsstring) :
  toLowerCase (toLowerCase s) = toLowerCase s.
Proof.
  unfold toLowerCase. rewrite map_map. apply map_ext. apply lowerUnit_idem.
Qed.

Lemma filter_idem {A} (p : A -> bool) (l : list A) :
  List.filter p (List.filter p l) = List.filter p l.
Proof.
  induction l as [|x l IH]; [reflexivity|]. simpl.
  destruct (p x) eqn:E; [simpl; rewrite E; now f_equal|exact IH].
Qed.

Lemma filter_map_swap {A B} (p : B -> bool) (g : A -> B) (l : list A) :
  List.filter p (map g l) = map g (List.filter (fun x => p (g x)) l).
Proof.
  induction l as [|x l IH]; [reflexivity|]. simpl.
  destruct (p (g x)); simpl; now rewrite IH.
Qed.

Lemma lowered_extension (file : RecentFile) :
  toLowerCase (orEmpty (extension (Spec.lowered file)))
  = toLowerCase (orEmpty (extension file)).
Proof.
  unfold Spec.lowered. simpl. destruct (extension file); simpl;
    [apply toLowerCase_idem | reflexivity].
Qed.

Lemma filteredFiles_spec_witness :
  filteredFiles (str "word")
    [ mkFile None (Some (str "a.docx")) (Some (str ".DOCX")) None;
      mkFile None (Some (str "b.pdf")) (Some (str ".pdf")) None;
      mkFile None (Some (str "c.doc")) (Some (str ".doc")) None ]
  = Spec.filter
      [ mkFile None (Some (str "a.docx")) (Some (str ".DOCX")) None;
        mkFile None (Some (str "b.pdf")) (Some (str ".pdf")) None;
        mkFile None (Some (str "c.doc")) (Some (str ".doc")) None ]
      (str "word").
Proof. exact (@filteredFiles_spec (str "word") _ eq_refl). Defined.

(** Showing the shown files again changes nothing, for every selector,
    the inherited names included. *)
Theorem filteredFiles_idempotent (selector : jsstring) (cache : list RecentFile) :
  filteredFiles selector (filteredFiles selector cache)
  = filteredFiles selector cache.
Proof.
  unfold filteredFiles.
  destruct (negb (streq selector (str "all"))); [|reflexivity].
  destruct (truthy (get FILTER_MAP selector)); [|reflexivity].
  apply filter_idem.
Qed.

(** Each file is kept or dropped on its own: filtering two lists one after
    the other is filtering their concatenation. *)
Theorem filteredFiles_app (selector : jsstring) (a b : list RecentFile) :
  filteredFiles selector (a ++ b)
  = filteredFiles selector a ++ filteredFiles selector b.
Proof.
  unfold filteredFiles.
  destruct (negb (streq selector (str "all"))); [|reflexivity].
  destruct (truthy (get FILTER_MAP selector)); [|reflexivity].
  apply filter_app.
Qed.

(** The case of the extensions plays no part: with every extension of the
    cache put in lower case, the same files are shown. *)
Theorem filteredFiles_lowered (selector : jsstring) (cache : list RecentFile) :
  filteredFiles selector (map Spec.lowered cache)
  = map Spec.lowered (filteredFiles selector cache).
Proof.
  unfold filteredFiles.
  destruct (negb (streq selector (str "all"))); [|reflexivity].
  destruct (truthy (get FILTER_MAP selector)); [|reflexivity].
  rewrite filter_map_swap. f_equal.
  apply filter_ext. intros file. cbv zeta. now rewrite lowered_extension.
Qed.

End FilteringMore.

(* ------------------------------------------------------------------------- *)
(** ** Further properties of escaping                                         *)
(* ------------------------------------------------------------------------- *)

Section EscapingMore.

Import Recent.
Local Open Scope N_scope.

Lemma entity_cases (c : codeunit) :
  (c = 38 \/ c = 60 \/ c = 62 \/ c = 34 \/ c = 39)
  \/ (Spec.entity c = [c] /\ Spec.special c = false).
Proof.
  unfold Spec.entity, Spec.special.
  destruct (N.eqb_spec c 38); [tauto|].
  destruct (N.eqb_spec c 60); [tauto|].
  destruct (N.eqb_spec c 62); [tauto|].
  destruct (N.eqb_spec c 34); [tauto|].
  destruct (N.eqb_spec c 39); [tauto|].
  right. split; reflexivity.
Qed.

Ltac five H := destruct H as [H|[H|[H|[H|H]]]]; subst.

Lemma entity_length (c : codeunit) :
  (1 <= List.length (Spec.entity c) <= 6)%nat.
Proof.
  destruct (entity_cases c) as [H|[H _]].
  - five H; vm_compute; split; lia.
  - rewrite H. simpl. lia.
Qed.

Lemma entity_app_inj (c d : codeunit) (u v : jsstring) :
  Spec.entity c ++ u = Spec.entity d ++ v -> c = d /\ u = v.
Proof.
  intros H.
  destruct (entity_cases c) as [Hc|[Ec Nc]];
    destruct (entity_cases d) as [Hd|[Ed Nd]].
  - five Hc; five Hd; cbv in H; first [discriminate | injection H; auto].
  - rewrite Ed in H. five Hc; cbv in H; injection H as <- _;
      discriminate Nd.
  - rewrite Ec in H. five Hd; cbv in H; injection H as -> _;
      discriminate Nc.
  - rewrite Ec, Ed in H. simpl in H. injection H; auto.
Qed.

Lemma escape_length (s : jsstring) :
  (List.length s <= List.length (Spec.escape s) <= 6 * List.length s)%nat.
Proof.
  induction s as [|c s IH]; simpl; [lia|].
  rewrite length_app. pose proof (entity_length c). lia.
Qed.

Lemma escape_inj (s t : jsstring) : Spec.escape s = Spec.escape t -> s = t.
Proof.
  revert t. induction s as [|c s IH]; intros [|d t] H; simpl in H.
  - reflexivity.
  - exfalso. apply (f_equal (@List.length _)) in H.
    rewrite length_app in H. pose proof (entity_length d). simpl in H. lia.
  - exfalso. apply (f_equal (@List.length _)) in H.
    rewrite length_app in H. pose proof (entity_length c). simpl in H. lia.
  - apply entity_app_inj in H. destruct H as [-> H]. f_equal. now apply IH.
Qed.

(** Two different texts never have the same escaped form. *)
Theorem escapeHTML_injective (s t : jsstring) :
  escapeHTML (Some s) = escapeHTML (Some t) -> s = t.
Proof.
  rewrite !escapeHTML_escape. simpl. apply escape_inj.
Qed.

Lemma escapeHTML_injective_witness :
  str "a<b>" = str "a<b>".
Proof. exact (@escapeHTML_injective (str "a<b>") (str "a<b>") eq_refl). Defined.

(** Escaping never shortens a text and makes it at most six times as
    long. *)
Theorem escapeHTML_length (s : option jsstring) :
  (List.length (orEmpty s) <= List.length (escapeHTML s)
   <= 6 * List.length (orEmpty s))%nat.
Proof. rewrite escapeHTML_escape. apply escape_length. Qed.

(** A text is returned as it is exactly when it holds none of the five
    characters. *)
Theorem escapeHTML_unchanged_iff (s : jsstring) :
  escapeHTML (Some s) = s <-> Forall (fun c => Spec.special c = false) s.
Proof.
  rewrite escapeHTML_escape. simpl orEmpty. split.
  - induction s as [|c s IH]; intros H; [constructor|].
    simpl in H. destruct (entity_cases c) as [Hc|[Ec Nc]].
    + exfalso. pose proof (escape_length s) as Hlen.
      apply (f_equal (@List.length _)) in H. rewrite length_app in H.
      five Hc; simpl in H; lia.
    + rewrite Ec in H. injection H as H. constructor; auto.
  - induction 1 as [|c s Hc _ IH]; [reflexivity|].
    simpl. destruct (entity_cases c) as [Hs|[Ec _]].
    + five Hs; discriminate Hc.
    + now rewrite Ec, IH.
Qed.

End EscapingMore.

(* ------------------------------------------------------------------------- *)
(** ** Further properties of the folder path                                  *)
(* ------------------------------------------------------------------------- *)

Section FolderPathMore.

Import Recent.
Local Open Scope N_scope.

(** A string has no separator, or a last one. *)
Lemma last_separator sep (s : jsstring) :
  ~ In sep s \/ exists d f, s = d ++ sep :: f /\ ~ In sep f.
Proof.
  induction s as [|x s IH]; [left; intros []|].
  destruct IH as [Hn|[d [f [-> Hf]]]].
  - destruct (N.eq_dec x sep) as [->|Hx].
    + right. exists [], s. split; [reflexivity|exact Hn].
    + left. intros [H|H]; [now apply Hx|now apply Hn].
  - right. exists (x :: d), f. split; [reflexivity|exact Hf].
Qed.

Lemma backslashed_no_slash (p : jsstring) :
  Forall (fun c => c <> 47) (Spec.backslashed p).
Proof.
  unfold Spec.backslashed. apply Forall_forall. intros c Hc.
  apply in_map_iff in Hc. destruct Hc as [x [<- _]].
  destruct (N.eqb_spec x 47); [discriminate|assumption].
Qed.

Lemma getFolderPath_cut (p d f : jsstring) :
  Spec.backslashed p = d ++ 92 :: f -> ~ In 92 f ->
  getFolderPath (Some p) = d.
Proof.
  intros E Hf.
  assert (Hp : p <> []) by (intros ->; destruct d; discriminate).
  rewrite (getFolderPath_present Hp), E, split_app, (split_plain _ _ Hf).
  rewrite removelast_app by discriminate. simpl removelast.
  rewrite app_nil_r. apply join_split.
Qed.

Lemma getFolderPath_flat (p : jsstring) :
  ~ In 92 (Spec.backslashed p) -> getFolderPath (Some p) = [].
Proof.
  intros Hn. destruct p as [|x p]; [reflexivity|].
  rewrite getFolderPath_present by discriminate.
  now rewrite (split_plain _ _ Hn).
Qed.

(** The folder path of a path is a beginning of the path with its slashes
    turned into backslashes, it holds no forward slash, and it is shorter
    than a path that is not empty: taking the folder again and again ends
    with the empty path. *)
Theorem getFolderPath_prefix (path : option jsstring) :
  (exists rest,
     Spec.backslashed (orEmpty path) = getFolderPath path ++ rest)
  /\ Forall (fun c => c <> 47) (getFolderPath path)
  /\ (falsy path = false ->
        (List.length (getFolderPath path) < List.length (orEmpty path))%nat).
Proof.
  destruct path as [p|]; [|repeat split; [now exists []|constructor|discriminate]].
  simpl orEmpty.
  assert (Hlen : List.length (Spec.backslashed p) = List.length p)
    by apply length_map.
  destruct (last_separator 92 (Spec.backslashed p)) as [Hn|[d [f [E Hf]]]].
  - rewrite (getFolderPath_flat _ Hn). repeat split.
    + now exists (Spec.backslashed p).
    + constructor.
    + destruct p; [discriminate|]. simpl. lia.
  - rewrite (getFolderPath_cut _ _ _ E Hf). repeat split.
    + now exists (92 :: f).
    + pose proof (backslashed_no_slash p) as Hall. rewrite E in Hall.
      now apply Forall_app in Hall.
    + intros _. rewrite <- Hlen, E, length_app. simpl. lia.
Qed.

Lemma getFolderPath_prefix_witness :
  (List.length (getFolderPath (Some (str "C:/docs/a.pdf")))
   < List.length (str "C:/docs/a.pdf"))%nat.
Proof.
  exact (proj2 (proj2 (@getFolderPath_prefix (Some (str "C:/docs/a.pdf"))))
           eq_refl).
Defined.

End FolderPathMore.

(* ------------------------------------------------------------------------- *)
(** ** Further properties of the date labels                                  *)
(* ------------------------------------------------------------------------- *)

Section DateLabelMore.

Local Open Scope Z_scope.

Variable parseDate : jsstring -> option Z.
Variable now : Z.
Variable monthDay : Z -> jsstring.

(** The numbers in the panel's labels: a present, valid timestamp is shown
    as the word for now, as 1 to 59 minutes, as 1 to 23 hours, as 1 to 6
    days, or as a month and day; never as 0 or 60 minutes, 0 or 24 hours,
    0 or 7 days. *)
Theorem formatRelativeDate_counts (stamp : jsstring) (date : Z) :
  stamp <> [] ->
  parseDate stamp = Some date ->
  let label := Recent.formatRelativeDate parseDate now monthDay (Some stamp) in
  label = Word.ima
  \/ (exists n, 1 <= n <= 59 /\ label = ofInt n ++ Word.fun_mae)
  \/ (exists n, 1 <= n <= 23 /\ label = ofInt n ++ Word.jikan_mae)
  \/ (exists n, 1 <= n <= 6 /\ label = ofInt n ++ Word.nichi_mae)
  \/ (7 * 86400000 <= now - date /\ label = monthDay date).
Proof.
  intros Hstamp Hparse label. unfold label.
  rewrite (@formatRelativeDate_cases parseDate now monthDay stamp date
             Hstamp Hparse).
  destruct (Z.ltb_spec (now - date) 60000); [now left|right].
  destruct (Z.ltb_spec (now - date) 3600000).
  { left. exists ((now - date) / 60000). split; [|reflexivity].
    split; [apply Z.div_le_lower_bound; lia|].
    enough ((now - date) / 60000 < 60) by lia.
    apply Z.div_lt_upper_bound; lia. }
  right. destruct (Z.ltb_spec (now - date) 86400000).
  { left. exists ((now - date) / 3600000). split; [|reflexivity].
    split; [apply Z.div_le_lower_bound; lia|].
    enough ((now - date) / 3600000 < 24) by lia.
    apply Z.div_lt_upper_bound; lia. }
  right. destruct (Z.ltb_spec (now - date) 604800000).
  { left. exists ((now - date) / 86400000). split; [|reflexivity].
    split; [apply Z.div_le_lower_bound; lia|].
    enough ((now - date) / 86400000 < 7) by lia.
    apply Z.div_lt_upper_bound; lia. }
  right. split; [lia|reflexivity].
Qed.

(** The shared label of a present, valid timestamp, by the whole days
    [days] gone by: today, yesterday, 2 to 6 days, 1 to 4 weeks, 1 to 12
    months, then years; and a timestamp later than now is shown with a
    negative number of days. *)
Theorem Common_formatRelativeDate_spec (stamp : jsstring) (date : Z) :
  stamp <> [] ->
  parseDate stamp = Some date ->
  let label := Common.formatRelativeDate parseDate now (Some stamp) in
  let days := (now - date) / 86400000 in
  (days = 0 -> label = Word.kyou)
  /\ (days = 1 -> label = Word.kinou)
  /\ (2 <= days < 7 -> label = ofInt days ++ Word.nichi_mae)
  /\ (7 <= days < 30 ->
        label = ofInt (days / 7) ++ Word.shuukan_mae /\ 1 <= days / 7 <= 4)
  /\ (30 <= days < 365 ->
        label = ofInt (days / 30) ++ Word.kagetsu_mae /\ 1 <= days / 30 <= 12)
  /\ (365 <= days ->
        label = ofInt (days / 365) ++ Word.nen_mae /\ 1 <= days / 365)
  /\ (now < date ->
        label = ofInt days ++ Word.nichi_mae /\ days < 0).
Proof.
  intros Hstamp Hparse label days.
  assert (Hlabel : label =
    if days =? 0 then Word.kyou
    else if days =? 1 then Word.kinou
    else if days <? 7 then ofInt days ++ Word.nichi_mae
    else if days <? 30 then ofInt (days / 7) ++ Word.shuukan_mae
    else if days <? 365 then ofInt (days / 30) ++ Word.kagetsu_mae
    else ofInt (days / 365) ++ Word.nen_mae).
  { unfold label, Common.formatRelativeDate.
    destruct stamp as [|c stamp]; [contradiction|].
    simpl falsy. cbv iota. simpl orEmpty. rewrite Hparse. reflexivity. }
  rewrite Hlabel.
  assert (Hneg : now < date -> days < 0).
  { intros H. unfold days. apply Z.div_lt_upper_bound; lia. }
  repeat split; intros;
    try match goal with Hlate : now < date |- _ => specialize (Hneg Hlate) end;
    repeat match goal with
           | |- context [?a =? ?b] => destruct (Z.eqb_spec a b); try lia
           | |- context [?a <? ?b] => destruct (Z.ltb_spec a b); try lia
           end;
    try reflexivity;
    try (apply Z.div_le_lower_bound; lia);
    try (enough (days / 7 < 5) by lia; apply Z.div_lt_upper_bound; lia);
    try (enough (days / 30 < 13) by lia; apply Z.div_lt_upper_bound; lia).
Qed.

End DateLabelMore.

Lemma formatRelativeDate_counts_witness :
  Recent.formatRelativeDate Sample.epoch 7200000 Sample.isoDay
    (Some (str "1970-01-01T00:00:00Z")) = Word.ima
  \/ (exists n, 1 <= n <= 59 /\
        Recent.formatRelativeDate Sample.epoch 7200000 Sample.isoDay
          (Some (str "1970-01-01T00:00:00Z")) = ofInt n ++ Word.fun_mae)%Z
  \/ (exists n, 1 <= n <= 23 /\
        Recent.formatRelativeDate Sample.epoch 7200000 Sample.isoDay
          (Some (str "1970-01-01T00:00:00Z")) = ofInt n ++ Word.jikan_mae)%Z
  \/ (exists n, 1 <= n <= 6 /\
        Recent.formatRelativeDate Sample.epoch 7200000 Sample.isoDay
          (Some (str "1970-01-01T00:00:00Z")) = ofInt n ++ Word.nichi_mae)%Z
  \/ (7 * 86400000 <= 7200000 - 0 /\
        Recent.formatRelativeDate Sample.epoch 7200000 Sample.isoDay
          (Some (str "1970-01-01T00:00:00Z")) = Sample.isoDay 0)%Z.
Proof.
  refine (@formatRelativeDate_counts Sample.epoch 7200000%Z Sample.isoDay
            (str "1970-01-01T00:00:00Z") 0%Z _ eq_refl).
  discriminate.
Defined.

Lemma Common_formatRelativeDate_spec_witness :
  Common.formatRelativeDate Sample.epoch (-3600000)
    (Some (str "1970-01-01T00:00:00Z"))
  = str "-1" ++ Word.nichi_mae.
Proof.
  refine (proj1 (proj2 (proj2 (proj2 (proj2 (proj2 (proj2
    (@Common_formatRelativeDate_spec Sample.epoch (-3600000)%Z
       (str "1970-01-01T00:00:00Z") 0%Z _ eq_refl)))))) _)).
  - discriminate.
  - lia.
Defined.

(* ------------------------------------------------------------------------- *)
(** ** Further properties of the icons                                        *)
(* ------------------------------------------------------------------------- *)

Section IconsMore.

Local Open Scope N_scope.

(** Neither icon function looks at the case of the extension. *)
Theorem getFileIcon_case (e : jsstring) :
  Recent.getFileIcon (Some e) = Recent.getFileIcon (Some (toLowerCase e))
  /\ Common.getFileIcon (Some e) = Common.getFileIcon (Some (toLowerCase e)).
Proof.
  unfold Recent.getFileIcon, Common.getFileIcon. simpl orEmpty.
  now rewrite toLowerCase_idem.
Qed.

(** The shared icon function gives a glyph, never an empty or undefined
    result, for every extension that starts with a dot, and the glyph is the
    default one when the table does not list the extension; it throws when
    the extension is absent. *)
Theorem Common_getFileIcon_total (s : jsstring) :
  (exists g, g <> [] /\ Common.getFileIcon (Some (46 :: s)) = Ok (Str g))
  /\ (own Common.iconMap (toLowerCase (46 :: s)) = None ->
        Common.getFileIcon (Some (46 :: s)) = Ok (Str Glyph.page))
  /\ Common.getFileIcon None = Throw (cannotRead "undefined" "toLowerCase").
Proof.
  unfold Common.getFileIcon, get.
  change (toLowerCase (46 :: s)) with (46 :: toLowerCase s).
  split; [|split; [|reflexivity]].
  - destruct (own Common.iconMap (46 :: toLowerCase s)) as [v|] eqn:E.
    + apply own_in in E. unfold Common.iconMap in E. simpl in E.
      repeat match type of E with _ \/ _ => destruct E as [E|E] end;
        try contradiction; injection E as _ <-;
        eexists; (split; [|reflexivity]); discriminate.
    + rewrite inherited_dotted. exists Glyph.page. split; [discriminate|reflexivity].
  - intros ->. now rewrite inherited_dotted.
Qed.

Lemma Common_getFileIcon_total_witness :
  Common.getFileIcon (Some (str ".log")) = Ok (Str Glyph.page).
Proof.
  exact (proj1 (proj2 (@Common_getFileIcon_total (str "log"))) eq_refl).
Defined.

End IconsMore.

(* ------------------------------------------------------------------------- *)
(** ** Rows and the list                                                      *)
(* ------------------------------------------------------------------------- *)

Section Display.

Import Recent.

Variable parseDate : jsstring -> option Z.
Variable now : Z.
Variable monthDay : Z -> jsstring.

Local Abbreviation rows := (mapRows parseDate now monthDay).
Local Abbreviation display := (displayFilteredFiles parseDate now monthDay).

Lemma mapRows_ok (files : list RecentFile) :
  Spec.named files ->
  exists html, rows files = Ok html /\ List.length html = List.length files.
Proof.
  induction 1 as [|f files Hf _ [html [IH Hlen]]]; [now exists []|].
  destruct (filename f) as [name|] eqn:E; [|contradiction].
  simpl. unfold createFileItemHTML at 1. rewrite E, IH.
  eexists. split; [reflexivity|]. simpl. now rewrite Hlen.
Qed.

Lemma mapRows_throw (files : list RecentFile) :
  ~ Spec.named files ->
  rows files = Throw (cannotRead "undefined" "length").
Proof.
  induction files as [|f files IH]; intros Hn; [exfalso; apply Hn; constructor|].
  simpl. unfold createFileItemHTML at 1.
  destruct (filename f) as [name|] eqn:E; [|reflexivity].
  rewrite IH; [reflexivity|].
  intros Hall. apply Hn. constructor; [congruence|exact Hall].
Qed.

(** The rows of a list are made all or none: when every file has a name
    there is one row for each, and when one file has none the whole list has
    no rows and the reading of the missing name throws. *)
Theorem mapRows_all_or_none (files : list RecentFile) :
  (Spec.named files ->
     exists html, rows files = Ok html /\ List.length html = List.length files)
  /\ (~ Spec.named files ->
        rows files = Throw (cannotRead "undefined" "length")).
Proof. split; [apply mapRows_ok | apply mapRows_throw]. Qed.

Ltac run :=
  unfold displayFilteredFiles, filterButtonClick, setFilter, tryCatch, bind,
    ret, throw, lift, read, getElementById, setInnerHTML, setCache,
    attachClickHandlers;
  cbn [container currentFilter allFilesCache negb fst snd]; cbv beta.

Lemma length_zero {A} (l : list A) :
  (List.length l =? 0)%nat = match l with [] => true | _ => false end.
Proof. destruct l; reflexivity. Qed.

(** Showing the list, as one case distinction. *)
Lemma displayFilteredFiles_cases (st : State) :
  display st =
    match container st with
    | None => (st, Ok tt)
    | Some _ =>
        match filteredFiles (currentFilter st) (allFilesCache st) with
        | [] => (mkState (currentFilter st) (allFilesCache st) (Some EmptyView),
                 Ok tt)
        | shown =>
            match rows shown with
            | Ok html =>
                (mkState (currentFilter st) (allFilesCache st)
                   (Some (ListView (join [] html) (List.length shown))), Ok tt)
            | Throw e => (st, Throw e)
            end
        end
    end.
Proof.
  run. destruct (container st); [|reflexivity]. cbn [negb].
  rewrite length_zero.
  destruct (filteredFiles (currentFilter st) (allFilesCache st)) as [|f l];
    [reflexivity|].
  destruct (rows (f :: l)); reflexivity.
Qed.

(** What showing the list does to the page.  Without the container,
    nothing.  With it: the empty view when the selector keeps no file; the
    rows of the kept files and their number when each of them has a name;
    and when one has none, an exception that leaves the container, the cache
    and the selector as they were. *)
Theorem displayFilteredFiles_view (st : State) :
  let shown := filteredFiles (currentFilter st) (allFilesCache st) in
  let write view :=
    (mkState (currentFilter st) (allFilesCache st) (Some view), Ok tt) in
  (container st = None -> display st = (st, Ok tt))
  /\ (container st <> None -> shown = [] -> display st = write EmptyView)
  /\ (container st <> None -> shown <> [] -> Spec.named shown ->
        exists html,
          rows shown = Ok html
          /\ List.length html = List.length shown
          /\ display st = write (ListView (join [] html) (List.length shown)))
  /\ (container st <> None -> ~ Spec.named shown ->
        display st = (st, Throw (cannotRead "undefined" "length"))).
Proof.
  intros shown write. unfold write. rewrite displayFilteredFiles_cases.
  fold shown. repeat split.
  - now intros ->.
  - intros Hc Hs. destruct (container st); [|contradiction]. now rewrite Hs.
  - intros Hc Hs Hn. destruct (container st); [|contradiction].
    destruct (mapRows_ok Hn) as [html [E Hlen]].
    exists html. split; [exact E|]. split; [exact Hlen|].
    destruct shown; [contradiction|]. cbv zeta. now rewrite E.
  - intros Hc Hn. destruct (container st); [|contradiction].
    pose proof (mapRows_throw Hn) as E.
    destruct shown; [exfalso; apply Hn; constructor|].
    cbv zeta. now rewrite E.
Qed.

Lemma filterButtonClick_cases (marker : option jsstring) (st : State) :
  filterButtonClick parseDate now monthDay marker st
  = display (mkState (if falsy marker then str "all" else orEmpty marker)
               (allFilesCache st) (container st)).
Proof. reflexivity. Qed.

(** The state a click on a filter button ends in, when its rows are made,
    is the same whatever button was clicked before it. *)
Theorem filterButtonClick_last_wins (first second : option jsstring) (st : State) :
  snd (filterButtonClick parseDate now monthDay second st) = Ok tt ->
  fst (filterButtonClick parseDate now monthDay second
         (fst (filterButtonClick parseDate now monthDay first st)))
  = fst (filterButtonClick parseDate now monthDay second st).
Proof.
  rewrite !filterButtonClick_cases.
  set (m1 := if falsy first then str "all" else orEmpty first).
  set (m2 := if falsy second then str "all" else orEmpty second).
  rewrite (displayFilteredFiles_cases (mkState m1 _ _)).
  cbn [container currentFilter allFilesCache].
  destruct (container st) as [v|]; [|reflexivity].
  intros Hok.
  assert (Hsame : forall v',
            fst (display (mkState m2 (allFilesCache st) (Some v')))
            = fst (display (mkState m2 (allFilesCache st) (Some v)))).
  { intros v'. rewrite displayFilteredFiles_cases in Hok.
    rewrite !displayFilteredFiles_cases.
    cbn [container currentFilter allFilesCache] in *.
    destruct (filteredFiles m2 (allFilesCache st)) as [|f2 l2]; [reflexivity|].
    destruct (rows (f2 :: l2)); [reflexivity|discriminate]. }
  destruct (filteredFiles m1 (allFilesCache st)) as [|f1 l1];
    [apply Hsame|].
  destruct (rows (f1 :: l1)); [apply Hsame|reflexivity].
Qed.

End Display.

(* ------------------------------------------------------------------------- *)
(** ** Further properties of fetching                                         *)
(* ------------------------------------------------------------------------- *)

Section FetchingMore.

Import Recent.
Local Open Scope Z_scope.

Variable parseDate : jsstring -> option Z.
Variable now : Z.
Variable monthDay : Z -> jsstring.
Variable fetch : jsstring -> Fetch.

Local Abbreviation load := (loadRecentFiles parseDate now monthDay fetch).
Local Abbreviation rows := (mapRows parseDate now monthDay).
Local Abbreviation display := (displayFilteredFiles parseDate now monthDay).

(** The call as one case distinction on what the request settles to. *)
Lemma loadRecentFiles_cases (days : Z) (st : State) :
  load days st =
    let failed message :=
      (mkState (currentFilter st) (allFilesCache st)
         (Some (ErrorView message)), Ok tt) in
    match container st with
    | None => (st, Ok tt)
    | Some _ =>
        match fetch (request days) with
        | Rejected e => failed (message e)
        | Response status body =>
            if ok status then
              match body with
              | Throw e => failed (message e)
              | Ok JNull => failed (message (cannotRead "null" "hits"))
              | Ok (JObject hits) =>
                  let files :=
                    match hits with Some files => files | None => [] end in
                  match display (mkState (currentFilter st) files
                                   (Some LoadingView)) with
                  | (st', Ok _) => (st', Ok tt)
                  | (st', Throw e) =>
                      (mkState (currentFilter st') (allFilesCache st')
                         (Some (ErrorView (message e))), Ok tt)
                  end
              end
            else failed (str "API error: " ++ ofInt status)
        end
    end.
Proof.
  unfold loadRecentFiles, tryCatch, bind, ret, throw, lift, getElementById,
    setInnerHTML, setCache.
  cbn [container currentFilter allFilesCache negb fst snd]. cbv beta zeta.
  destruct (container st); [|reflexivity]. cbn [negb].
  destruct (fetch (request days)) as [e|status body]; [reflexivity|].
  destruct (ok status); [|reflexivity]. cbn [negb].
  destruct body as [[|hits]|e]; try reflexivity.
  cbn [container currentFilter allFilesCache].
  destruct (display _) as [st' [[]|e]]; reflexivity.
Qed.

(** A good answer with files: the cache becomes the files of the answer in
    every case.  The view is the empty view when the selector keeps none of
    them, their rows and number when every kept file has a name; and when a
    kept file has no name, the error view with the message of the failed
    reading, over a cache that already holds the new files. *)
Theorem loadRecentFiles_success
    (days status : Z) (files : list RecentFile) (st : State) :
  container st <> None ->
  fetch (request days) = Response status (Ok (JObject (Some files))) ->
  ok status = true ->
  let shown := filteredFiles (currentFilter st) files in
  let ends view := (mkState (currentFilter st) files (Some view), Ok tt) in
  (shown = [] -> load days st = ends EmptyView)
  /\ (shown <> [] -> Spec.named shown ->
        exists html,
          rows shown = Ok html
          /\ load days st = ends (ListView (join [] html) (List.length shown)))
  /\ (~ Spec.named shown ->
        load days st
        = ends (ErrorView (message (cannotRead "undefined" "length")))).
Proof.
  intros Hc Hfetch Hok shown ends. unfold ends.
  rewrite loadRecentFiles_cases. cbv zeta.
  destruct (container st); [|contradiction]. rewrite Hfetch, Hok.
  rewrite displayFilteredFiles_cases.
  cbn [container currentFilter allFilesCache]. fold shown.
  repeat split.
  - now intros ->.
  - intros Hs Hn. destruct (mapRows_ok parseDate now monthDay Hn) as [html [E _]].
    exists html. split; [exact E|].
    destruct shown; [contradiction|]. now rewrite E.
  - intros Hn. pose proof (mapRows_throw parseDate now monthDay Hn) as E.
    destruct shown; [exfalso; apply Hn; constructor|]. now rewrite E.
Qed.

(** However the request ends, the call returns without throwing and leaves
    the selector alone; without the container it changes nothing and with it
    the loading view is never what remains. *)
Theorem loadRecentFiles_settled (days : Z) (st : State) :
  snd (load days st) = Ok tt
  /\ currentFilter (fst (load days st)) = currentFilter st
  /\ (container st = None -> load days st = (st, Ok tt))
  /\ (container st <> None ->
        exists view, container (fst (load days st)) = Some view
                     /\ view <> LoadingView).
Proof.
  rewrite loadRecentFiles_cases. cbv zeta.
  destruct (container st) as [v|] eqn:Hc.
  2:{ repeat split; auto. intros H. contradiction. }
  assert (Hnone : Some v = None -> False) by discriminate.
  destruct (fetch (request days)) as [e|status body].
  { repeat split; auto; try (intros; contradiction).
    intros _. eexists. split; [reflexivity|discriminate]. }
  destruct (ok status).
  2:{ repeat split; auto; try (intros; contradiction).
      intros _. eexists. split; [reflexivity|discriminate]. }
  destruct body as [[|hits]|e];
    try (repeat split; auto; try (intros; contradiction);
         intros _; eexists; split; [reflexivity|discriminate]).
  rewrite displayFilteredFiles_cases.
  cbn [container currentFilter allFilesCache].
  destruct (filteredFiles _ _) as [|f l].
  { repeat split; auto; try (intros; contradiction).
    intros _. eexists. split; [reflexivity|discriminate]. }
  destruct (rows (f :: l));
    repeat split; auto; try (intros; contradiction);
    intros _; eexists; (split; [reflexivity|discriminate]).
Qed.

(** The cache after the call: the files of the answer (none when the answer
    has no [hits]) when the container is there and the request is answered
    with a good status and a body that parses to an object; the cache as it
    was in every other case. *)
Theorem loadRecentFiles_cache (days : Z) (st : State) :
  allFilesCache (fst (load days st)) =
    match container st, fetch (request days) with
    | Some _, Response status (Ok (JObject hits)) =>
        if ok status
        then match hits with Some files => files | None => [] end
        else allFilesCache st
    | _, _ => allFilesCache st
    end.
Proof.
  rewrite loadRecentFiles_cases. cbv zeta.
  destruct (container st); [|reflexivity].
  destruct (fetch (request days)) as [e|status body]; [reflexivity|].
  destruct body as [[|hits]|e]; destruct (ok status); try reflexivity.
  rewrite displayFilteredFiles_cases.
  cbn [container currentFilter allFilesCache].
  destruct (filteredFiles _ _) as [|f l]; [reflexivity|].
  destruct (rows (f :: l)); reflexivity.
Qed.

End FetchingMore.

Section FetchingMoreWitnesses.

Import Recent Sample.

Lemma loadRecentFiles_success_witness :
  loadRecentFiles epoch 0 isoDay twoFiles 7
    (mkState (str "pdf") [] (Some LoadingView))
  = (mkState (str "pdf") [report; nameless]
       (Some (ErrorView (message (cannotRead "undefined" "length")))),
     Ok tt).
Proof.
  refine (proj2 (proj2
    (@loadRecentFiles_success epoch 0%Z isoDay twoFiles 7%Z 200%Z
       [report; nameless] (mkState (str "pdf") [] (Some LoadingView))
       _ eq_refl eq_refl)) _).
  - discriminate.
  - intros Hall. inversion Hall as [|f l Hf Hrest]; subst.
    inversion Hrest as [|f' l' Hf' _]; subst. now apply Hf'.
Defined.

End FetchingMoreWitnesses.

(* ------------------------------------------------------------------------- *)
(** ** Filter buttons                                                         *)
(* ------------------------------------------------------------------------- *)

Section Buttons.

Import Recent.

Variable parseDate : jsstring -> option Z.
Variable now : Z.
Variable monthDay : Z -> jsstring.

Local Abbreviation click := (buttonClick parseDate now monthDay).

Lemma addActive_nth (i j : nat) (bs : list Button) :
  nth_error (addActive i (map (setActive false) bs)) j
  = option_map (setActive (Nat.eqb j i)) (nth_error bs j).
Proof.
  revert i j. induction bs as [|b bs IH]; intros i j.
  - destruct i, j; reflexivity.
  - destruct i as [|i], j as [|j]; simpl; try reflexivity.
    + clear IH. revert j. induction bs as [|b' bs IHb]; intros [|j]; simpl;
        try reflexivity. apply IHb.
    + apply IH.
Qed.

Lemma addActive_count (i : nat) (bs : list Button) :
  List.length (List.filter active (addActive i (map (setActive false) bs)))
  = if Nat.ltb i (List.length bs) then 1%nat else 0%nat.
Proof.
  revert i. induction bs as [|b bs IH]; intros i.
  - destruct i; reflexivity.
  - destruct i as [|i]; simpl.
    + f_equal. clear IH. induction bs as [|b' bs IHb]; simpl; auto.
    + rewrite IH. reflexivity.
Qed.

Lemma addActive_markers (i : nat) (bs : list Button) :
  map marker (addActive i (map (setActive false) bs)) = map marker bs.
Proof.
  revert i. induction bs as [|b bs IH]; intros i.
  - destruct i; reflexivity.
  - destruct i as [|i]; simpl.
    + f_equal. clear IH. induction bs as [|b' bs IHb]; simpl; congruence.
    + now rewrite IH.
Qed.

Lemma displayFilteredFiles_frame (st : State) :
  currentFilter (fst (displayFilteredFiles parseDate now monthDay st))
  = currentFilter st
  /\ allFilesCache (fst (displayFilteredFiles parseDate now monthDay st))
     = allFilesCache st.
Proof.
  rewrite displayFilteredFiles_cases.
  destruct (container st); [|now split].
  destruct (filteredFiles _ _) as [|f l]; [now split|]. cbv zeta.
  destruct (mapRows parseDate now monthDay (f :: l)); now split.
Qed.

(** After a click on a button, that button and no other is marked active,
    the buttons keep their markers, the selector is the marker of the
    clicked button, or [all] when it has none or an empty one, and the
    cache is what it was; all this also when making the rows throws. *)
Theorem buttonClick_exclusive (i : nat) (pg : Page) (button : Button) :
  nth_error (buttons pg) i = Some button ->
  let after := fst (click i pg) in
  (forall j, nth_error (buttons after) j
             = option_map (setActive (Nat.eqb j i)) (nth_error (buttons pg) j))
  /\ List.length (List.filter active (buttons after)) = 1%nat
  /\ map marker (buttons after) = map marker (buttons pg)
  /\ currentFilter (panel after)
     = (if falsy (marker button) then str "all" else orEmpty (marker button))
  /\ allFilesCache (panel after) = allFilesCache (panel pg).
Proof.
  intros Hnth after. unfold after, buttonClick. rewrite Hnth.
  rewrite filterButtonClick_cases.
  destruct (displayFilteredFiles_frame
              (mkState (if falsy (marker button) then str "all"
                        else orEmpty (marker button))
                 (allFilesCache (panel pg)) (container (panel pg))))
    as [Hsel Hcache].
  destruct (displayFilteredFiles _ _ _ _) as [st r].
  cbn [fst buttons panel] in *. repeat split.
  - intros j. apply addActive_nth.
  - rewrite addActive_count.
    assert (Hlt : (i < List.length (buttons pg))%nat)
      by (apply nth_error_Some; congruence).
    apply Nat.ltb_lt in Hlt. now rewrite Hlt.
  - apply addActive_markers.
  - exact Hsel.
  - exact Hcache.
Qed.

End Buttons.

Lemma buttonClick_exclusive_witness :
  List.length
    (List.filter Recent.active
       (Recent.buttons
          (fst (Recent.buttonClick Sample.epoch 0 Sample.isoDay 2
                  (Recent.mkPage
                     (Recent.mkState (str "all") [] (Some Recent.LoadingView))
                     Sample.fourButtons)))))
  = 1%nat.
Proof.
  exact (proj1 (proj2
    (@buttonClick_exclusive Sample.epoch 0%Z Sample.isoDay 2
       (Recent.mkPage
          (Recent.mkState (str "all") [] (Some Recent.LoadingView))
          Sample.fourButtons)
       (Recent.mkButton (Some (str "word")) false) eq_refl))).
Defined.


(* ------------------------------------------------------------------------- *)
(** ** Opening the folder of a row                                            *)
(* ------------------------------------------------------------------------- *)

Section Opening.

Import Recent.

Variable post : jsstring -> Post.

Local Abbreviation open := (openFolder post).
Local Abbreviation click := (itemClick post).

(** The opening succeeds exactly when the request is answered with a
    status from 200 to 299 and a body that parses, and it returns that
    body. *)
Theorem openFolder_ok_iff (path : jsstring) (reply : Reply) :
  open path = Ok reply
  <-> exists status,
        post path = PostResponse status (Ok reply) /\ ok status = true.
Proof.
  unfold openFolder. split.
  - destruct (post path) as [e|status body]; [discriminate|].
    destruct (ok status) eqn:Hok; cbn [negb].
    + intros ->. now exists status.
    + destruct body as [[|detail]|e]; discriminate.
  - intros [status [-> ->]]. reflexivity.
Qed.

Lemma itemClick_shape (ui : Ui) (path : jsstring) :
  dataPath (item ui) = Some path -> path <> [] ->
  click ui =
    mkUi (mkItem (Some path) (str "1"))
      (match open path with
       | Ok _ => alerts ui
       | Throw error => alerts ui ++ [couldNotOpen ++ message error]
       end).
Proof.
  intros Hpath Hne. unfold itemClick. rewrite Hpath.
  destruct path as [|c path]; [contradiction|].
  cbn [falsy orEmpty]. unfold setOpacity, alert.
  destruct (open (c :: path)); cbn [item alerts dataPath]; now rewrite Hpath.
Qed.


End Opening.


(* ------------------------------------------------------------------------- *)
(** ** Toasts and the clipboard                                               *)
(* ------------------------------------------------------------------------- *)

Section Toasts.

Import Common.

Lemma showToast_toasts (message type : jsstring) (d : Document) :
  toasts (showToast message type d)
  = tl (toasts d)
    ++ [(created d,
         mkToast (str "toast toast-" ++ type) message
           (if streq type (str "error") then str "#ea4335" else str "#34a853")
           (str "fadeIn 0.3s ease"))].
Proof. reflexivity. Qed.

(** On a page that shows at most one toast, what is shown after
    [showToast] is the new toast and nothing else. *)
Theorem showToast_single (message type : jsstring) (d : Document) :
  List.length (toasts d) <= 1 ->
  exists toast,
    toasts (showToast message type d) = [(created d, toast)]
    /\ textContent toast = message
    /\ className toast = str "toast toast-" ++ type.
Proof.
  intros Hlen. rewrite showToast_toasts.
  destruct (toasts d) as [|t [|t' l]]; simpl in *; try lia;
    eexists; repeat split.
Qed.

Lemma showToast_single_witness :
  exists toast,
    toasts (showToast (str "saved") (str "success") (mkDocument [] 0))
    = [(0, toast)]
    /\ textContent toast = str "saved"
    /\ className toast = str "toast toast-" ++ str "success".
Proof.
  apply (@showToast_single (str "saved") (str "success") (mkDocument [] 0)).
  simpl. lia.
Defined.

Lemma toastStep_length (d d' : Document) :
  toastStep d d' -> List.length (toasts d) <= 1 -> List.length (toasts d') <= 1.
Proof.
  intros Hstep Hlen. destruct Hstep as [message type d|id d|id d].
  - rewrite showToast_toasts, length_app. simpl.
    destruct (toasts d) as [|t [|t' l]]; simpl in *; lia.
  - unfold fadeOut. simpl. now rewrite length_map.
  - unfold removeToast. simpl.
    pose proof (filter_length_le (fun t => negb (Nat.eqb (fst t) id)) (toasts d)).
    lia.
Qed.

(** Starting from a page with at most one toast, no sequence of toasts
    shown and timers fired ever puts two toasts on the page. *)
Theorem toasts_never_two (d0 d : Document) :
  List.length (toasts d0) <= 1 ->
  toastReach d0 d ->
  List.length (toasts d) <= 1.
Proof.
  intros H0 Hreach. induction Hreach as [|d d' _ IH Hstep]; [exact H0|].
  exact (toastStep_length Hstep IH).
Qed.

Lemma toasts_never_two_witness :
  List.length
    (toasts (showToast (str "b") (str "error")
               (fadeOut 0 (showToast (str "a") (str "success")
                             (mkDocument [] 0)))))
  <= 1.
Proof.
  refine (@toasts_never_two (mkDocument [] 0) _ _ _).
  - simpl. lia.
  - eapply reach_step; [eapply reach_step; [eapply reach_step;
      [apply reach_refl|]|]|]; constructor.
Defined.

Section Clipboard.

Variable writeText : jsstring -> result unit.

(** Copying never throws: it returns [true] exactly when the clipboard took
    the text, and on a page with at most one toast it leaves one toast, the
    green one with the words for copied after a success, the red one with
    the words for failed after a failure. *)
Theorem copyToClipboard_spec (text : jsstring) (d : Document) :
  List.length (toasts d) <= 1 ->
  let after := fst (copyToClipboard writeText text d) in
  let copied_ok := snd (copyToClipboard writeText text d) in
  (copied_ok = true <-> exists u, writeText text = Ok u)
  /\ toasts after
     = [(created d,
         if copied_ok
         then mkToast (str "toast toast-success") copied (str "#34a853")
                (str "fadeIn 0.3s ease")
         else mkToast (str "toast toast-error") copyFailed (str "#ea4335")
                (str "fadeIn 0.3s ease"))].
Proof.
  intros Hlen after copied_ok. unfold after, copied_ok, copyToClipboard.
  destruct (writeText text) as [u|e]; cbn [fst snd]; split.
  - split; [intros _; now exists u|reflexivity].
  - rewrite showToast_toasts.
    destruct (toasts d) as [|t [|t' l]]; simpl in *; try lia; reflexivity.
  - split; [discriminate|intros [u H]; discriminate].
  - rewrite showToast_toasts.
    destruct (toasts d) as [|t [|t' l]]; simpl in *; try lia; reflexivity.
Qed.

End Clipboard.

End Toasts.

Lemma copyToClipboard_spec_witness :
  Common.toasts
    (fst (Common.copyToClipboard Sample.clipboard (str "C:\a.pdf")
            (Common.mkDocument [] 0)))
  = [(0%nat,
      Common.mkToast (str "toast toast-success") Common.copied (str "#34a853")
        (str "fadeIn 0.3s ease"))].
Proof.
  refine (proj2
    (@copyToClipboard_spec Sample.clipboard (str "C:\a.pdf")
       (Common.mkDocument [] 0) _)).
  simpl. lia.
Defined.

Section DisplayWitnesses.

Import Recent Sample.

Lemma mapRows_all_or_none_witness :
  mapRows epoch 0 isoDay [report; nameless]
  = Throw (cannotRead "undefined" "length").
Proof.
  refine (proj2 (@mapRows_all_or_none epoch 0%Z isoDay [report; nameless]) _).
  intros Hall. inversion Hall as [|f l Hf Hrest]; subst.
  inversion Hrest as [|f' l' Hf' _]; subst. now apply Hf'.
Defined.

Lemma displayFilteredFiles_view_witness :
  displayFilteredFiles epoch 0 isoDay
    (mkState (str "excel") [report] (Some LoadingView))
  = (mkState (str "excel") [report] (Some EmptyView), Ok tt).
Proof.
  refine (proj1 (proj2
    (@displayFilteredFiles_view epoch 0%Z isoDay
       (mkState (str "excel") [report] (Some LoadingView)))) _ eq_refl).
  discriminate.
Defined.

Lemma filterButtonClick_last_wins_witness :
  fst (filterButtonClick epoch 0 isoDay (Some (str "pdf"))
         (fst (filterButtonClick epoch 0 isoDay (Some (str "word"))
                 (mkState (str "all") [report] (Some LoadingView)))))
  = fst (filterButtonClick epoch 0 isoDay (Some (str "pdf"))
           (mkState (str "all") [report] (Some LoadingView))).
Proof.
  exact (@filterButtonClick_last_wins epoch 0%Z isoDay
           (Some (str "word")) (Some (str "pdf"))
           (mkState (str "all") [report] (Some LoadingView)) eq_refl).
Defined.

Lemma loadRecentFiles_settled_witness :
  exists view,
    container
      (fst (loadRecentFiles epoch 0 isoDay serverError 7
              (mkState (str "all") [] (Some LoadingView))))
    = Some view
    /\ view <> LoadingView.
Proof.
  refine (proj2 (proj2 (proj2
    (@loadRecentFiles_settled epoch 0%Z isoDay serverError 7%Z
       (mkState (str "all") [] (Some LoadingView))))) _).
  discriminate.
Defined.

End DisplayWitnesses.
